(** * Agent-Based-PPT-Maker: a shallow embedding of [app.py]

    The file embeds class [PPTGenerator] of [src/app.py] and proves the
    properties of its pipeline: outline parsing, image-query generation,
    photo download, slide rendering and deck assembly.

    Conventions of the embedding.
    - A Python [str] is a [string]; its characters are read as the code
      points 0..255.
    - A Python object coming out of [json.loads] is a [value]; a [dict] is
      a [gmap string value].
    - The methods run in the monad [M]: a state ([world]) threaded through
      the calls, and an [outcome] that is either a returned value or a
      raised exception. [try_except] is Python's [try ... except].
    - The services outside the repository (the two generative models,
      [json.loads], [os.getenv], [requests.get], [open]) are the fields of
      an environment [Env]; each one sees the trace of everything that has
      happened so far, so that two calls with equal arguments may answer
      differently.
    - The presentation library is an in-memory API over a list of slides
      whose text properties accept [str] only. Two of its calls reach
      outside the program and may raise: [add_picture], which reads a
      file and has to recognise a picture in its bytes, and [save], which
      writes the presentation file. What they answer are two more fields
      of [Env].
    - [print] writes to a console that encodes every character of the
      strings of the model (UTF-8, say): it raises nothing.
    - [requests.get] answers or raises as the environment says, on any
      URL. The URL of the search request is the constant of line 79 as it
      is written, brackets included: a library that looks for a scheme at
      the start of the URL raises on it, and then no photo is ever
      fetched (see [no_search_no_photo]).
    - Every call to a service and every [print] is appended to the trace of
      the world, in program order. *)

From Stdlib Require Import ZArith String Ascii List Bool Lia.
From Stdlib Require Import Floats.SpecFloat.
From stdpp Require Import base option gmap strings list fin_maps.

Set Warnings "-register-all".
Local Open Scope Z_scope.

(** ** Python strings *)

Module Py.

(** The double quote and the line feed, as one-character strings. *)
Definition dq : string := String "034"%char EmptyString.
Definition nl : string := String "010"%char EmptyString.

(** [str.isspace] on one character, for the code points below 256:
    TAB..CR, FS..US, SPACE, NEL and NBSP. *)
Definition isspace (c : ascii) : bool :=
  let n := nat_of_ascii c in
  ((9 <=? n) && (n <=? 13) || (28 <=? n) && (n <=? 32)
   || (n =? 133) || (n =? 160))%nat.

(** [c in chars] for a character [c]. *)
Fixpoint char_in (chars : string) (c : ascii) : bool :=
  match chars with
  | EmptyString => false
  | String d chars' => Ascii.eqb c d || char_in chars' c
  end.

(** [s.lstrip(..)] and [s.rstrip(..)], for the set of characters [p]. *)
Fixpoint lstrip_by (p : ascii -> bool) (s : string) : string :=
  match s with
  | EmptyString => EmptyString
  | String c s' => if p c then lstrip_by p s' else s
  end.

Fixpoint rstrip_by (p : ascii -> bool) (s : string) : string :=
  match s with
  | EmptyString => EmptyString
  | String c s' =>
      match rstrip_by p s' with
      | EmptyString => if p c then EmptyString else String c EmptyString
      | r => String c r
      end
  end.

Definition strip_by (p : ascii -> bool) (s : string) : string :=
  rstrip_by p (lstrip_by p s).

(** [s.strip()] and [s.strip(chars)]. *)
Definition strip (s : string) : string := strip_by isspace s.
Definition strip_chars (chars s : string) : string := strip_by (char_in chars) s.

(** [s.startswith(pre)]. *)
Fixpoint startswith (pre s : string) : bool :=
  match pre, s with
  | EmptyString, _ => true
  | String _ _, EmptyString => false
  | String a pre', String b s' => Ascii.eqb a b && startswith pre' s'
  end.

(** [s.endswith(suf)]. *)
Fixpoint endswith (suf s : string) : bool :=
  String.eqb s suf ||
  match s with
  | EmptyString => false
  | String _ s' => endswith suf s'
  end.

Fixpoint drop (n : nat) (s : string) : string :=
  match n, s with
  | O, _ => s
  | S _, EmptyString => EmptyString
  | S n', String _ s' => drop n' s'
  end.

(** [s.partition(sep)] at the leftmost occurrence of [sep]: the text before
    it and the text after it, or [None] when [sep] does not occur. *)
Fixpoint partition (sep s : string) : option (string * string) :=
  if startswith sep s then Some (EmptyString, drop (String.length sep) s)
  else match s with
       | EmptyString => None
       | String c s' =>
           match partition sep s' with
           | Some (a, b) => Some (String c a, b)
           | None => None
           end
       end.

(** [sub in s]. *)
Definition contains (sub s : string) : bool :=
  match partition sub s with Some _ => true | None => false end.

(** [s.split(sep)] for a non-empty [sep]: cut at the leftmost occurrence and
    go on in the rest. The rest is shorter than [s], so [length s] rounds
    are enough. *)
Fixpoint split_upto (rounds : nat) (sep s : string) : list string :=
  match rounds with
  | O => [s]
  | S rounds' =>
      match partition sep s with
      | None => [s]
      | Some (a, b) => a :: split_upto rounds' sep b
      end
  end.

Definition split (sep s : string) : list string :=
  split_upto (String.length s) sep s.

(** [str.lower] on one character: A..Z and the capital letters of the
    Latin-1 supplement move up by 32. *)
Definition lower_char (c : ascii) : ascii :=
  let n := nat_of_ascii c in
  if ((65 <=? n) && (n <=? 90)
      || (192 <=? n) && (n <=? 222) && negb (n =? 215))%nat
  then ascii_of_nat (n + 32) else c.

Fixpoint lower (s : string) : string :=
  match s with
  | EmptyString => EmptyString
  | String c s' => String (lower_char c) (lower s')
  end.

End Py.

(** ** Python objects, as [json.loads] builds them *)

Inductive value : Type :=
  | VNone
  | VBool (b : bool)
  | VInt (z : Z)
  | VFloat (f : spec_float)
  | VStr (s : string)
  | VList (l : list value)
  | VDict (d : gmap string value).

(** The exceptions the program can meet. All of them are subclasses of
    [Exception]; [ServiceError] stands for whatever a service outside the
    repository raises. *)
Inductive exn : Type :=
  | KeyError (key : value)
  | IndexError
  | TypeError
  | AttributeError
  | JSONDecodeError
  | UnboundLocalError
  | FileNotFoundError
  | ValueError
  | ServiceError (msg : string).

Inductive outcome (A : Type) : Type :=
  | Raised (e : exn)
  | Returned (a : A).
Arguments Raised {A} e.
Arguments Returned {A} a.

(** [bool(v)], the truth value used by [if v:] and [not v]. *)
Definition truthy (v : value) : bool :=
  match v with
  | VNone => false
  | VBool b => b
  | VInt z => negb (z =? 0)
  | VFloat f => match f with S754_zero _ => false | _ => true end
  | VStr s => negb (String.eqb s EmptyString)
  | VList l => match l with [] => false | _ => true end
  | VDict d => negb (Nat.eqb (size d) 0)
  end.

(** [len(v)]. *)
Definition py_len (v : value) : outcome Z :=
  match v with
  | VStr s => Returned (Z.of_nat (String.length s))
  | VList l => Returned (Z.of_nat (length l))
  | VDict d => Returned (Z.of_nat (size d))
  | _ => Raised TypeError
  end.

(** [v[0]]. *)
Definition getitem0 (v : value) : outcome value :=
  match v with
  | VList l => match l with x :: _ => Returned x | [] => Raised IndexError end
  | VStr s =>
      match s with
      | String c _ => Returned (VStr (String c EmptyString))
      | EmptyString => Raised IndexError
      end
  | VDict _ => Raised (KeyError (VInt 0))
  | _ => Raised TypeError
  end.

(** [v[key]] for a string [key]. *)
Definition getitem (v : value) (key : string) : outcome value :=
  match v with
  | VDict d =>
      match d !! key with
      | Some x => Returned x
      | None => Raised (KeyError (VStr key))
      end
  | _ => Raised TypeError
  end.

(** [v.get(key, default)]: only a [dict] has the method. *)
Definition dict_get (v : value) (key : string) (dflt : value) : outcome value :=
  match v with
  | VDict d => Returned (default dflt (d !! key))
  | _ => Raised AttributeError
  end.

(** [v[1:]]. *)
Definition slice_from1 (v : value) : outcome value :=
  match v with
  | VList l => Returned (VList (tail l))
  | VStr s => Returned (VStr (Py.drop 1 s))
  | _ => Raised TypeError
  end.

(** [v.lower()] and [v.split(sep)]: only a [str] has the methods. *)
Definition str_lower (v : value) : outcome string :=
  match v with
  | VStr s => Returned (Py.lower s)
  | _ => Raised AttributeError
  end.

Definition str_split (v : value) (sep : string) : outcome (list string) :=
  match v with
  | VStr s => Returned (Py.split sep s)
  | _ => Raised AttributeError
  end.

(** ** The deck *)

(** Lengths are in English Metric Units, as [pptx.util] has them:
    [Inches(x)] is [x * 914400]; the argument here is in hundredths of an
    inch, so that [Inches 550] is [Inches(5.5)]. *)
Definition Inches (hundredths : Z) : Z := hundredths * 9144.

Record style : Type := Style {
  font_size : option Z;            (* in points: Pt(n) *)
  font_bold : bool;
  font_italic : bool;
  font_color : option (Z * Z * Z); (* RGBColor(r, g, b) *)
  centered : bool                  (* PP_ALIGN.CENTER *)
}.

Definition plain : style := Style None false false None false.

Record text_run : Type := TextRun { run_text : string; run_style : style }.

Record picture : Type := Picture {
  pic_data : string;
  pic_left : Z;
  pic_top : Z;
  pic_height : Z
}.

(** One slide of the presentation. [layout] is the index into
    [slide_layouts] the slide was added with: 0 is the title layout, 1 is
    title and content, 5 is title only. *)
Record slide : Type := Slide {
  layout : nat;
  title_run : text_run;
  subtitle_run : option text_run;
  bullets : list text_run;
  body_width : option Z;
  caption_run : option (Z * Z * Z * Z * text_run);
  picture_of : option picture
}.

Definition blank_slide (l : nat) : slide :=
  Slide l (TextRun EmptyString plain) None [] None None None.

(** ** The world *)

(** The two prompts, by the holes of their f-strings. *)
Inductive prompt : Type :=
  | OutlinePrompt (topic : string) (num_slides : Z)
  | ImageQueryPrompt (slide_content : value).

(** The lines the program prints. *)
Inductive message : Type :=
  | MsgInvalidArray
  | MsgJSONDecodeError (content : string)
  | MsgOutlineError (e : exn)
  | MsgImageDescError (e : exn)
  | MsgNoKey
  | MsgNoImages (query : string)
  | MsgDownloadError (e : exn)
  | MsgGeneratingOutline
  | MsgOutlineFailed
  | MsgCreatingTitle
  | MsgCreatingSlide (i n : Z) (title : value) (slide_type : string)
  | MsgSaved (output_file : string).

Inductive event : Type :=
  | Printed (m : message)
  | CallModel (p : prompt)
  | CallVision (p : prompt)
  | CallJsonLoads (content : string)
  | CallGetenv (name : string)
  | CallSearch (url : string) (key : value) (query : string)
  | CallFetch (url : value)
  | CallOpen (path : string)
  | CallRemove (path : string)
  | CallSave (path : string).

Record world : Type := World {
  trace : list event;
  slides : list slide;                  (* self.presentation *)
  files : gmap string string;           (* the files on disk *)
  saved : list (string * list slide)    (* the presentations written *)
}.

(** The services outside the repository. *)
Record Env : Type := {
  (* self.model.generate_content(prompt) followed by response.text *)
  model_generate : list event -> prompt -> outcome string;
  (* self.model_vision.generate_content(prompt) followed by response.text *)
  vision_generate : list event -> prompt -> outcome string;
  (* json.loads(content); None is json.JSONDecodeError *)
  json_loads : string -> option value;
  (* os.getenv(name) *)
  getenv : list event -> string -> option string;
  (* requests.get(url, headers, params), raise_for_status() and json() *)
  http_get_json : list event -> string -> value -> string -> outcome value;
  (* requests.get(url), raise_for_status() and .content *)
  http_get_content : list event -> value -> outcome string;
  (* open(path, 'wb') and f.write(..) *)
  file_write : list event -> string -> outcome unit;
  (* the presentation library reading the bytes of a picture file, in
     add_picture: it raises on bytes it does not recognise as a picture *)
  image_parse : list event -> string -> outcome unit;
  (* the presentation library writing the file, in Presentation.save *)
  file_save : list event -> string -> outcome unit
}.

(** ** The monad of methods *)

Definition M (A : Type) : Type := world -> outcome A * world.

Definition ret {A} (a : A) : M A := fun w => (Returned a, w).

Definition raise {A} (e : exn) : M A := fun w => (Raised e, w).

Definition bind {A B} (m : M A) (k : A -> M B) : M B :=
  fun w =>
    match m w with
    | (Returned a, w') => k a w'
    | (Raised e, w') => (Raised e, w')
    end.

Notation "x <- m ;; k" := (bind m (fun x => k))
  (at level 100, m at next level, right associativity).
Notation "m ;;; k" := (bind m (fun _ => k))
  (at level 100, right associativity).

(** An operation of Python that may raise, run as a method step. *)
Definition lift {A} (o : outcome A) : M A := fun w => (o, w).

(** [try: body  except Exception as e: handler e]. *)
Definition try_except {A} (body : M A) (handler : exn -> M A) : M A :=
  fun w =>
    match body w with
    | (Returned a, w') => (Returned a, w')
    | (Raised e, w') => handler e w'
    end.

(** The world once the events [evs] have happened. *)
Definition logged (w : world) (evs : list event) : world :=
  World (trace w ++ evs) (slides w) (files w) (saved w).

Definition log (ev : event) : M unit :=
  fun w => (Returned tt, logged w [ev]).

Definition print (m : message) : M unit := log (Printed m).

(** A call to a service: the answer is read off the trace so far, and the
    call is appended to the trace. *)
Definition call {A} (ev : event) (answer : list event -> outcome A) : M A :=
  fun w => (answer (trace w), logged w [ev]).

(** [for x in xs: body x]. *)
Fixpoint for_each {A} (xs : list A) (body : A -> M unit) : M unit :=
  match xs with
  | [] => ret tt
  | x :: xs' => body x ;;; for_each xs' body
  end.

(** [enumerate(xs, start)]. *)
Fixpoint enumerate {A} (start : Z) (xs : list A) : list (Z * A) :=
  match xs with
  | [] => []
  | x :: xs' => (start, x) :: enumerate (start + 1) xs'
  end.

(** [try: body] with the outcome handed back instead of propagated. *)
Definition attempt {A} (body : M A) : M (outcome A) :=
  fun w => let (r, w') := body w in (Returned r, w').

(** ** The presentation library *)

(** [slides.add_slide(slide_layouts[l])]: the new slide goes to the end of
    the deck; the result is the handle of the slide, its position. *)
Definition add_slide (l : nat) : M nat :=
  fun w => (Returned (length (slides w)),
            World (trace w) (slides w ++ [blank_slide l]) (files w) (saved w)).

Definition update_slide (sl : nat) (f : slide -> slide) : M unit :=
  fun w => (Returned tt,
            World (trace w) (alter f sl (slides w)) (files w) (saved w)).

(** A text property of the library takes a [str]: on anything else the
    library fails on a [str] method the value does not have. *)
Definition as_text (v : value) : outcome string :=
  match v with
  | VStr s => Returned s
  | _ => Raised AttributeError
  end.

(** A path handed to [os]: a [str]. *)
Definition as_path (v : value) : outcome string :=
  match v with
  | VStr s => Returned s
  | _ => Raised TypeError
  end.

(** [slide.shapes.title.text = v], then the formatting of its first
    paragraph. *)
Definition set_title (sl : nat) (v : value) (sty : style) : M unit :=
  s <- lift (as_text v) ;;
  update_slide sl (fun x =>
    Slide (layout x) (TextRun s sty) (subtitle_run x) (bullets x)
          (body_width x) (caption_run x) (picture_of x)).

(** [slide.placeholders[1].text = v] on the title layout, then the
    formatting of its first paragraph. *)
Definition set_subtitle (sl : nat) (v : value) (sty : style) : M unit :=
  s <- lift (as_text v) ;;
  update_slide sl (fun x =>
    Slide (layout x) (title_run x) (Some (TextRun s sty)) (bullets x)
          (body_width x) (caption_run x) (picture_of x)).

(** [text_frame.clear()] of the content placeholder: every paragraph but
    the first is removed, and the first is left without text and without
    formatting. *)
Definition clear_body (sl : nat) : M unit :=
  update_slide sl (fun x =>
    Slide (layout x) (title_run x) (subtitle_run x) [TextRun EmptyString plain]
          (body_width x) (caption_run x) (picture_of x)).

(** [p = text_frame.add_paragraph()], its text and its formatting. *)
Definition add_paragraph (sl : nat) (s : string) (sty : style) : M unit :=
  update_slide sl (fun x =>
    Slide (layout x) (title_run x) (subtitle_run x) (bullets x ++ [TextRun s sty])
          (body_width x) (caption_run x) (picture_of x)).

(** [content_shape.width = wd]. *)
Definition set_body_width (sl : nat) (wd : Z) : M unit :=
  update_slide sl (fun x =>
    Slide (layout x) (title_run x) (subtitle_run x) (bullets x)
          (Some wd) (caption_run x) (picture_of x)).

(** [slide.shapes.add_textbox(left, top, width, height)] and the text and
    formatting of its first paragraph. *)
Definition add_textbox (sl : nat) (left top width height : Z) (v : value)
    (sty : style) : M unit :=
  s <- lift (as_text v) ;;
  update_slide sl (fun x =>
    Slide (layout x) (title_run x) (subtitle_run x) (bullets x)
          (body_width x) (Some (left, top, width, height, TextRun s sty))
          (picture_of x)).

(** [slide.shapes.add_picture(img_path, left, top, height=height)]: the
    file is read and its bytes have to be a picture; if the library does
    not recognise one it raises, and the slide is left as it was. *)
Definition add_picture (E : Env) (sl : nat) (img_path : value)
    (left top height : Z) : M unit :=
  path <- lift (as_text img_path) ;;
  fun w =>
    match files w !! path with
    | None => (Raised FileNotFoundError, w)
    | Some data =>
        match image_parse E (trace w) data with
        | Raised e => (Raised e, w)
        | Returned _ =>
            update_slide sl (fun x =>
              Slide (layout x) (title_run x) (subtitle_run x) (bullets x)
                    (body_width x) (caption_run x)
                    (Some (Picture data left top height))) w
        end
    end.

(** [self.presentation.save(output_file)]: the deck is written, unless the
    file cannot be. *)
Definition save (E : Env) (output_file : string) : M unit :=
  fun w =>
    match file_save E (trace w) output_file with
    | Raised e => (Raised e, logged w [CallSave output_file])
    | Returned _ =>
        (Returned tt,
         World (trace w ++ [CallSave output_file]) (slides w) (files w)
               (saved w ++ [(output_file, slides w)]))
    end.

(** [os.remove(img_path)]. *)
Definition os_remove (img_path : value) : M unit :=
  path <- lift (as_path img_path) ;;
  fun w =>
    match files w !! path with
    | None => (Raised FileNotFoundError,
               World (trace w ++ [CallRemove path]) (slides w) (files w) (saved w))
    | Some _ => (Returned tt,
                 World (trace w ++ [CallRemove path]) (slides w)
                       (delete path (files w)) (saved w))
    end.

(** The elements a [for] loop walks through. *)
Definition py_iter (v : value) : outcome (list value) :=
  match v with
  | VList l => Returned l
  | VStr s => Returned ((fun c => VStr (String c EmptyString)) <$> list_ascii_of_string s)
  | VDict d => Returned ((fun kv => VStr kv.1) <$> map_to_list d)
  | _ => Raised TypeError
  end.

(** ** class PPTGenerator *)

Definition json_fence : string := "```json".
Definition fence : string := "```".

(** [xs[i]] on the list a [split] returned. *)
Definition item (xs : list string) (i : nat) : outcome string :=
  match xs !! i with
  | Some x => Returned x
  | None => Raised IndexError
  end.

(** The text before the leftmost [sep] of [s], or [s] when it has none:
    what [s.split(sep)[0]] is. *)
Definition first_piece (sep s : string) : string :=
  match Py.partition sep s with
  | Some (a, _) => a
  | None => s
  end.

(** Lines 39-42 of [generate_content_outline]: the code-fence markers are
    taken off the stripped response. *)
Definition strip_fences (content : string) : outcome string :=
  if Py.contains json_fence content then
    match item (Py.split json_fence content) 1 with
    | Raised e => Raised e
    | Returned inner =>
        match item (Py.split fence inner) 0 with
        | Raised e => Raised e
        | Returned body => Returned (Py.strip body)
        end
    end
  else if Py.contains fence content then
    match item (Py.split fence content) 1 with
    | Raised e => Raised e
    | Returned body => Returned (Py.strip body)
    end
  else Returned content.

(** A text between [```json] and [```], each on a line of its own. *)
Definition fenced (t : string) : string :=
  json_fence +:+ Py.nl +:+ t +:+ Py.nl +:+ fence.

(** Lines 38-42: from the text of the response to the text handed to the
    array check. *)
Definition response_content (text : string) : outcome string :=
  strip_fences (Py.strip text).

(** Line 45: [content.startswith('[') and content.endswith(']')]. *)
Definition is_array_text (content : string) : bool :=
  Py.startswith "[" content && Py.endswith "]" content.

(** The fallback query of [generate_image_description]. *)
Definition fallback_query : string := "abstract technology background".

(** The URL of the search request, as line 79 has it. *)
Definition pexels_url : string :=
  "[https://api.pexels.com/v1/search](https://api.pexels.com/v1/search)".

Definition temp_img : string := "temp_img.jpg".

Section PPTGenerator.

Context (E : Env).

(** The two [except] clauses of [generate_content_outline]. The first one
    prints the local variable [content], which is bound from line 38 on. *)
Definition outline_except (content : option string) (e : exn) : M value :=
  match e with
  | JSONDecodeError =>
      match content with
      | Some c => print (MsgJSONDecodeError c) ;;; ret VNone
      | None => raise UnboundLocalError
      end
  | _ => print (MsgOutlineError e) ;;; ret VNone
  end.

Definition call_json_loads (content : string) : M value :=
  call (CallJsonLoads content)
       (fun _ => match json_loads E content with
                 | Some v => Returned v
                 | None => Raised JSONDecodeError
                 end).

Definition generate_content_outline (topic : string) (num_slides : Z) : M value :=
  let prompt := OutlinePrompt topic num_slides in
  response <- attempt (call (CallModel prompt) (fun tr => model_generate E tr prompt)) ;;
  match response with
  | Raised e => outline_except None e
  | Returned text =>
      let content := Py.strip text in
      match strip_fences content with
      | Raised e => outline_except (Some content) e
      | Returned content =>
          if negb (Py.startswith "[" content) || negb (Py.endswith "]" content)
          then print MsgInvalidArray ;;; ret VNone
          else
            parsed <- attempt (call_json_loads content) ;;
            match parsed with
            | Raised e => outline_except (Some content) e
            | Returned v => ret v
            end
      end
  end.

Definition generate_image_description (slide_content : value) : M string :=
  let prompt := ImageQueryPrompt slide_content in
  try_except
    (text <- call (CallVision prompt) (fun tr => vision_generate E tr prompt) ;;
     ret (Py.strip text))
    (fun e => print (MsgImageDescError e) ;;; ret fallback_query).

(** [os.getenv(name)]: [None] or a [str]. *)
Definition os_getenv (name : string) : M value :=
  call (CallGetenv name)
       (fun tr => Returned (match getenv E tr name with
                            | Some s => VStr s
                            | None => VNone
                            end)).

(** [with open(save_path, 'wb') as f: f.write(data)]. *)
Definition write_file (save_path data : string) : M unit :=
  fun w =>
    match file_write E (trace w) save_path with
    | Raised e =>
        (Raised e,
         World (trace w ++ [CallOpen save_path]) (slides w) (files w) (saved w))
    | Returned _ =>
        (Returned tt,
         World (trace w ++ [CallOpen save_path]) (slides w)
               (<[save_path := data]> (files w)) (saved w))
    end.

Definition download_image (query : string) (save_path : string) : M value :=
  try_except
    (pexels_api_key <- os_getenv "PEXELS_API_KEY" ;;
     if negb (truthy pexels_api_key) then
       print MsgNoKey ;;; ret VNone
     else
       data <- call (CallSearch pexels_url pexels_api_key query)
                    (fun tr => http_get_json E tr pexels_url pexels_api_key query) ;;
       photos <- lift (dict_get data "photos" VNone) ;;
       if negb (truthy photos) then
         print (MsgNoImages query) ;;; ret VNone
       else
         photos <- lift (getitem data "photos") ;;
         photo <- lift (getitem0 photos) ;;
         src <- lift (getitem photo "src") ;;
         image_url <- lift (getitem src "original") ;;
         image <- call (CallFetch image_url)
                       (fun tr => http_get_content E tr image_url) ;;
         write_file save_path image ;;;
         ret (VStr save_path))
    (fun e => print (MsgDownloadError e) ;;; ret VNone).

Definition create_title_slide (title subtitle : value) : M unit :=
  slide <- add_slide 0 ;;
  set_title slide title (Style (Some 40) true false (Some (0, 0, 128)) true) ;;;
  if truthy subtitle then
    set_subtitle slide subtitle
      (Style (Some 24) false true (Some (105, 105, 105)) true)
  else ret tt.

Definition create_content_slide (title content : value) (include_image : bool) : M unit :=
  slide <- add_slide 1 ;;
  set_title slide title (Style (Some 32) true false (Some (0, 0, 128)) false) ;;;
  clear_body slide ;;;
  points <- lift (str_split content Py.nl) ;;
  for_each points (fun point =>
    add_paragraph slide (Py.strip (Py.strip_chars "- " point))
      (Style (Some 18) false false None false)) ;;;
  if include_image then
    image_desc <- generate_image_description content ;;
    img_path <- download_image image_desc temp_img ;;
    if truthy img_path then
      set_body_width slide (Inches 550) ;;;
      add_picture E slide img_path (Inches 425) (Inches 175) (Inches 400) ;;;
      os_remove img_path
    else ret tt
  else ret tt.

Definition create_image_slide (title content : value) (img_query : string) : M unit :=
  slide <- add_slide 5 ;;
  set_title slide title (Style None false false None true) ;;;
  (if truthy content then
     add_textbox slide (Inches 50) (Inches 600) (Inches 900) (Inches 100) content
       (Style (Some 16) false false None true)
   else ret tt) ;;;
  img_path <- download_image img_query temp_img ;;
  if truthy img_path then
    add_picture E slide img_path (Inches 100) (Inches 150) (Inches 450) ;;;
    os_remove img_path
  else ret tt.

(** The body of the loop of [generate_presentation] (lines 196-211) for
    the element [slide_info] at position [i] of [outline]. *)
Definition loop_body (outline : value) (i : Z) (slide_info : value) : M unit :=
  declared <- lift (dict_get slide_info "slide_type" (VStr "content")) ;;
  slide_type <- lift (str_lower declared) ;;
  title <- lift (dict_get slide_info "title" (VStr EmptyString)) ;;
  content <- lift (dict_get slide_info "content" (VStr EmptyString)) ;;
  n <- lift (py_len outline) ;;
  print (MsgCreatingSlide (i + 1) n title slide_type) ;;;
  if String.eqb slide_type "title" then
    create_title_slide title content
  else if String.eqb slide_type "image" then
    img_query <- generate_image_description content ;;
    create_image_slide title content img_query
  else if String.eqb slide_type "conclusion" then
    create_content_slide title content false
  else
    create_content_slide title content true.

Definition generate_presentation (topic : string) (num_slides : Z)
    (output_file : string) : M value :=
  print MsgGeneratingOutline ;;;
  outline <- generate_content_outline topic num_slides ;;
  rejected <- (if negb (truthy outline) then ret true
               else n <- lift (py_len outline) ;; ret (n <? 1)) ;;
  if (rejected : bool) then
    print MsgOutlineFailed ;;; ret VNone
  else
    print MsgCreatingTitle ;;;
    first <- lift (getitem0 outline) ;;
    title <- lift (getitem first "title") ;;
    first <- lift (getitem0 outline) ;;
    subtitle <- lift (dict_get first "content" (VStr EmptyString)) ;;
    create_title_slide title subtitle ;;;
    rest <- lift (slice_from1 outline) ;;
    items <- lift (py_iter rest) ;;
    for_each (enumerate 1 items) (fun '(i, slide_info) =>
      loop_body outline i slide_info) ;;;
    save E output_file ;;;
    print (MsgSaved output_file) ;;;
    ret (VStr output_file).

End PPTGenerator.

(** [PPTGenerator(api_key)] on a machine with the files [fs]: the key is
    required; the presentation is empty and nothing has happened yet. *)
Definition new_generator (api_key : value) (fs : gmap string string) : outcome world :=
  if negb (truthy api_key) then Raised ValueError
  else Returned (World [] [] fs []).

(** ** Vocabulary of the properties *)

(** The world with one more slide at the end of the deck. *)
Definition pushed (w : world) (s : slide) : world :=
  World (trace w) (slides w ++ [s]) (files w) (saved w).


(** A [dict] in which [key] is missing or bound to a string. *)
Definition text_or_absent (d : gmap string value) (key : string) : Prop :=
  d !! key = None \/ exists s, d !! key = Some (VStr s).

(** A SlideSpec with fields left out. *)
Definition is_loose_spec (v : value) : Prop :=
  exists d, v = VDict d /\ text_or_absent d "title" /\
    text_or_absent d "content" /\ text_or_absent d "slide_type".

(** The string under [key], with the default of [dict.get]. *)
Definition field (dflt : string) (v : value) (key : string) : string :=
  match v with
  | VDict d => match d !! key with Some (VStr s) => s | _ => dflt end
  | _ => dflt
  end.

(** The slide [create_title_slide] builds. *)
Definition title_slide (title subtitle : string) : slide :=
  Slide 0 (TextRun title (Style (Some 40) true false (Some (0, 0, 128)) true))
        (if String.eqb subtitle EmptyString then None
         else Some (TextRun subtitle
                      (Style (Some 24) false true (Some (105, 105, 105)) true)))
        [] None None None.

(** The slide [create_content_slide] builds before it looks for a
    picture: the empty paragraph that [clear] leaves, then one paragraph
    for each line of the content. *)
Definition content_slide (title content : string) : slide :=
  Slide 1 (TextRun title (Style (Some 32) true false (Some (0, 0, 128)) false))
        None
        (TextRun EmptyString plain ::
         ((fun point =>
             TextRun (Py.strip (Py.strip_chars "- " point))
                     (Style (Some 18) false false None false))
          <$> Py.split Py.nl content))
        None None None.

(** The events of an image fetch: the query request, the photo lookup,
    the download and the temporary file, with what they print. *)
Definition image_event (ev : event) : Prop :=
  match ev with
  | CallVision _ | CallGetenv _ | CallSearch _ _ _ | CallFetch _
  | CallOpen _ | CallRemove _ => True
  | Printed (MsgImageDescError _) | Printed MsgNoKey
  | Printed (MsgNoImages _) | Printed (MsgDownloadError _) => True
  | _ => False
  end.

(** The slide [create_image_slide] builds before it looks for a
    picture. *)
Definition image_slide (title content : string) : slide :=
  Slide 5 (TextRun title (Style None false false None true)) None [] None
        (if String.eqb content EmptyString then None
         else Some (Inches 50, Inches 600, Inches 900, Inches 100,
                    TextRun content (Style (Some 16) false false None true)))
        None.

(** The slide the loop of [generate_presentation] builds for an element
    of the outline, before any picture. *)
Definition base_slide (slide_info : value) : slide :=
  let slide_type := Py.lower (field "content" slide_info "slide_type") in
  let title := field EmptyString slide_info "title" in
  let content := field EmptyString slide_info "content" in
  if String.eqb slide_type "title" then title_slide title content
  else if String.eqb slide_type "image" then image_slide title content
  else content_slide title content.

(** [s] is [base] up to a picture and the room made for it. *)
Definition same_text (base s : slide) : Prop :=
  layout s = layout base /\ title_run s = title_run base /\
  subtitle_run s = subtitle_run base /\ bullets s = bullets base /\
  caption_run s = caption_run base.

(** A method run from [w] to [w'] that has put one slide with the text of
    [base] at the end of the deck, saved nothing, and whose events were
    [evs]. *)
Definition one_slide (base : slide) (evs : list event) (w w' : world) : Prop :=
  exists s, slides w' = slides w ++ [s] /\ same_text base s /\
    saved w' = saved w /\ trace w' = trace w ++ evs.

(** ** Scenarios

    Concrete environments, for running the program on examples. *)

(** An environment whose services answer the same way whenever asked. *)
Definition static_env (outline_response image_response : outcome string)
    (loads : string -> option value) (pexels_key : option string)
    (search_response : outcome value) (image_bytes : outcome string)
    (written recognised : outcome unit) : Env :=
  {| model_generate := fun _ _ => outline_response;
     vision_generate := fun _ _ => image_response;
     json_loads := loads;
     getenv := fun _ _ => pexels_key;
     http_get_json := fun _ _ _ _ => search_response;
     http_get_content := fun _ _ => image_bytes;
     file_write := fun _ _ => written;
     image_parse := fun _ _ => recognised;
     file_save := fun _ _ => Returned tt |}.

(** [json.loads] on the texts of a table, and a decode error elsewhere. *)
Fixpoint loads_table (table : list (string * value)) (content : string) : option value :=
  match table with
  | [] => None
  | (text, v) :: table' =>
      if String.eqb content text then Some v else loads_table table' content
  end.

(** What the presentation library says of a file that is not a
    picture. *)
Definition not_a_picture : exn := ServiceError "cannot identify image file".

(** A machine without network: every service fails, no key is set. *)
Definition offline (outline_response : outcome string)
    (loads : string -> option value) : Env :=
  static_env outline_response (Raised (ServiceError "offline")) loads None
    (Raised (ServiceError "offline")) (Raised (ServiceError "offline"))
    (Returned tt) (Raised not_a_picture).

(** A fresh generator on a machine with no files. *)
Definition fresh : world := World [] [] ∅ [].

(** The response [{"a":1}]: JSON, but not an array. *)
Definition object_text : string := "{" +:+ Py.dq +:+ "a" +:+ Py.dq +:+ ":1}".

Definition object_env : Env :=
  offline (Returned object_text)
          (loads_table [(object_text, VDict {[ "a" := VInt 1 ]})]).

(** The response [["```[1, 2]```"]]: an array of one string, and that
    string holds a fenced array. *)
Definition quoted_fence_text : string :=
  "[" +:+ Py.dq +:+ "```[1, 2]```" +:+ Py.dq +:+ "]".

Definition quoted_fence_loads : string -> option value :=
  loads_table [("[1, 2]", VList [VInt 1; VInt 2]);
               (quoted_fence_text, VList [VStr "```[1, 2]```"])].

Definition quoted_fence_env : Env :=
  offline (Returned quoted_fence_text) quoted_fence_loads.

Definition quoted_fence_env_fenced : Env :=
  offline (Returned (fenced quoted_fence_text)) quoted_fence_loads.

(** The response [[1, 2]], bare and fenced. *)
Definition pair_text : string := "[1, 2]".

Definition pair_loads : string -> option value :=
  loads_table [(pair_text, VList [VInt 1; VInt 2])].

Definition pair_env : Env := offline (Returned pair_text) pair_loads.
Definition pair_env_fenced : Env := offline (Returned (fenced pair_text)) pair_loads.


(** A machine with a key, on which the photo service finds one photo and
    the download works; what is downloaded are four bytes, in which the
    presentation library recognises no picture. *)
Definition photo_url : string := "https://images.pexels.com/photos/1/cat.jpg".

Definition stocked_env (outline_response : outcome string)
    (loads : string -> option value) : Env :=
  static_env outline_response (Returned "  a cat ") loads (Some "secret")
    (Returned (VDict {[ "photos" :=
       VList [VDict {[ "src" := VDict {[ "original" := VStr photo_url ]} ]}] ]}))
    (Returned "JFIF") (Returned tt) (Raised not_a_picture).

(** JSON text: a string between double quotes, and a [key: string]
    member. *)
Definition quoted (s : string) : string := Py.dq +:+ s +:+ Py.dq.

Definition member (key text : string) : string :=
  quoted key +:+ ": " +:+ quoted text.

Definition record (title content slide_type : string) : string :=
  "{" +:+ member "title" title +:+ ", " +:+ member "content" content +:+ ", "
  +:+ member "slide_type" slide_type +:+ "}".

(** The outline on the animal kingdom: three slides. In the text the line
    break of the second slide is the escape sequence, in the parsed value
    it is the line feed. *)
Definition animal_text : string :=
  "[" +:+ record "Animal Kingdom" EmptyString "title" +:+ ", "
  +:+ record "Mammals" "- Warm blooded\n- Fur" "content" +:+ ", "
  +:+ record "Summary" "- Diverse" "conclusion" +:+ "]".

Definition slide_spec (title content slide_type : string) : value :=
  VDict {[ "title" := VStr title; "content" := VStr content;
           "slide_type" := VStr slide_type ]}.

Definition mammals_content : string := "- Warm blooded" +:+ Py.nl +:+ "- Fur".

Definition animal_outline : value :=
  VList [slide_spec "Animal Kingdom" EmptyString "title";
         slide_spec "Mammals" mammals_content "content";
         slide_spec "Summary" "- Diverse" "conclusion"].

Definition animal_loads : string -> option value :=
  loads_table [(animal_text, animal_outline)].

(** The outline [[{"content": "x"}]]: the first element has no title. *)
Definition untitled_text : string := "[{" +:+ member "content" "x" +:+ "}]".

Definition untitled_env : Env :=
  offline (Returned untitled_text)
    (loads_table [(untitled_text, VList [VDict {[ "content" := VStr "x" ]}])]).

(** The outline [[{"title": "T"}, {"slide_type": null}]]: the type of the
    second slide is not a string. *)
Definition untyped_text : string :=
  "[{" +:+ member "title" "T" +:+ "}, {" +:+ quoted "slide_type" +:+ ": null}]".

Definition untyped_env : Env :=
  offline (Returned untyped_text)
    (loads_table [(untyped_text,
                   VList [VDict {[ "title" := VStr "T" ]};
                          VDict {[ "slide_type" := VNone ]}])]).

(** The outline [[{"title": "T"}, {}]]: the second element is empty. *)
Definition sparse_text : string := "[{" +:+ member "title" "T" +:+ "}, {}]".

Definition sparse_env : Env :=
  offline (Returned sparse_text)
    (loads_table [(sparse_text, VList [VDict {[ "title" := VStr "T" ]}; VDict ∅])]).

(** The animal kingdom on a machine where a photo is found, and on a
    machine without network. *)
Definition animal_env : Env := stocked_env (Returned animal_text) animal_loads.

Definition animal_offline_env : Env := offline (Returned animal_text) animal_loads.

(** The world of a new generator once the outline on the animal kingdom
    has been asked for and [text] has been parsed. *)
Definition parsed (text : string) : world :=
  logged fresh [Printed MsgGeneratingOutline;
                CallModel (OutlinePrompt "Animal Kingdom" 3);
                CallJsonLoads text].

(** ** Further vocabulary *)

(** A text between two [```] lines, without a language tag. *)
Definition bare_fenced (t : string) : string :=
  fence +:+ Py.nl +:+ t +:+ Py.nl +:+ fence.

(** A piece of prose that ends its line, or nothing at all: what may stand
    before a fence that opens a line. *)
Definition ends_line (lead : string) : Prop :=
  lead = EmptyString \/ exists pre, lead = pre +:+ Py.nl.

(** A piece of prose on a line of its own, or nothing at all: what may
    stand after a fence that closes a line. *)
Definition starts_line (rest : string) : Prop :=
  rest = EmptyString \/ exists post, rest = Py.nl +:+ post.

(** A response with prose around the fenced outline. *)
Definition chatty_text : string :=
  "Here is the outline:" +:+ Py.nl +:+ fenced pair_text +:+ Py.nl
  +:+ "Hope this helps!".

Definition chatty_bare_text : string :=
  "Here is the outline:" +:+ Py.nl +:+ bare_fenced pair_text
  +:+ " Hope this helps!".

(** A machine on which the outline request itself fails: with an error of
    the service, or with a decode error of its own. *)
Definition quota_env : Env :=
  offline (Raised (ServiceError "quota exceeded")) (fun _ => None).

Definition decode_error_env : Env :=
  offline (Raised JSONDecodeError) (fun _ => None).

(** The response [[1, 2]: the brackets are there, the JSON is not. *)
Definition broken_text : string := "[1, 2]]".

Definition broken_env : Env := offline (Returned broken_text) pair_loads.

(** A method keeps a relation between the world it starts in and the
    world it ends in, whether it returns or raises. *)
Definition keeps (R : world -> world -> Prop) {A} (m : M A) : Prop :=
  forall w r w', m w = (r, w') -> R w w'.

(** The deck and the saved presentations are untouched. *)
Definition same_deck (w w' : world) : Prop :=
  slides w' = slides w /\ saved w' = saved w.

(** Slides are added at the end of the deck, and nothing is saved. *)
Definition grows (w w' : world) : Prop :=
  (exists new, slides w' = slides w ++ new) /\ saved w' = saved w.

(** Work goes on on the slide that follows the slides [l], and nothing
    is saved. *)
Definition builds (l : list slide) (w w' : world) : Prop :=
  saved w' = saved w /\
  ((exists s, slides w = l ++ [s]) -> exists s', slides w' = l ++ [s']).

(** A method that either raises after having added slides only, or
    returns [output_file] after having added slides and saved the deck
    it ends with under that name. *)
Definition saves_at_end (output_file : string) (m : M value) : Prop :=
  forall w r w', m w = (r, w') ->
    (exists e, r = Raised e /\ grows w w') \/
    (r = Returned (VStr output_file) /\
     (exists new, slides w' = slides w ++ new) /\
     saved w' = saved w ++ [(output_file, slides w')]).

(** ** The entry point *)

(** [PPTGenerator.__init__] (lines 12-20): the key is required; the
    presentation of the new generator is empty. *)
Definition init_generator (api_key : value) : M unit :=
  fun w =>
    if negb (truthy api_key) then (Raised ValueError, w)
    else (Returned tt, World (trace w) [] (files w) (saved w)).

(** The lines the entry point prints itself. *)
Inductive main_line : Type :=
  | LineInitiated
  | LineSuccess (output_file : value)
  | LineError (e : exn).

(** The block under [__main__] (lines 217-229). [load_dotenv] is part of
    what [os.getenv] answers. The result is the list of the lines the
    block prints: the first one before anything else happens, the other
    one, if any, after everything else. *)
Definition main (E : Env) : M (list main_line) :=
  fun w =>
    match (api_key <- os_getenv E "GOOGLE_API_KEY" ;;
           init_generator api_key ;;;
           generate_presentation E "Animal Kingdom" 7 "AI_Presentation.pptx") w
    with
    | (Returned output_file, w') =>
        (Returned (LineInitiated ::
                   if truthy output_file then [LineSuccess output_file] else []),
         w')
    | (Raised e, w') => (Returned [LineInitiated; LineError e], w')
    end.

(** ** Counting the image requests *)

(** The slide contents for which an image query has been asked, in the
    order of the requests. *)
Fixpoint image_queries (evs : list event) : list value :=
  match evs with
  | [] => []
  | CallVision (ImageQueryPrompt content) :: evs' => content :: image_queries evs'
  | _ :: evs' => image_queries evs'
  end.

(** The number of times the key of the photo service has been looked
    up: once for each call of [download_image]. *)
Fixpoint key_lookups (evs : list event) : nat :=
  match evs with
  | [] => 0
  | CallGetenv name :: evs' =>
      if String.eqb name "PEXELS_API_KEY" then S (key_lookups evs')
      else key_lookups evs'
  | _ :: evs' => key_lookups evs'
  end.

(** The slides after the first that look for a picture: those whose
    type, in lower case, is neither "title" nor "conclusion". *)
Definition wants_image (slide_info : value) : bool :=
  let slide_type := Py.lower (field "content" slide_info "slide_type") in
  negb (String.eqb slide_type "title")
  && negb (String.eqb slide_type "conclusion").

(** ** Pictures *)

(** What [os.getenv('PEXELS_API_KEY')] returns once the events [tr] have
    happened: [None] or a [str]. *)
Definition pexels_key (E : Env) (tr : list event) : value :=
  match getenv E tr "PEXELS_API_KEY" with
  | Some s => VStr s
  | None => VNone
  end.

(** [download_image query save_path], called once the events [tr] have
    happened, gets through: there is a key, the search request answers
    with a first photo that has an original, the bytes [image] of that
    photo are downloaded, and the file at [save_path] is written. *)
Definition fetched (E : Env) (query save_path : string) (tr : list event)
    (image : string) : Prop :=
  let key := pexels_key E tr in
  let searched := [CallGetenv "PEXELS_API_KEY"; CallSearch pexels_url key query] in
  exists data photos photo src url,
    truthy key = true /\
    http_get_json E (tr ++ [CallGetenv "PEXELS_API_KEY"]) pexels_url key query
    = Returned data /\
    getitem data "photos" = Returned photos /\ truthy photos = true /\
    getitem0 photos = Returned photo /\
    getitem photo "src" = Returned src /\
    getitem src "original" = Returned url /\
    http_get_content E (tr ++ searched) url = Returned image /\
    file_write E (tr ++ searched ++ [CallFetch url]) save_path = Returned tt.

(** Every photo that [download_image] fetches is a picture for the
    presentation library. This holds, in particular, where the search
    request never answers. *)
Definition photos_place (E : Env) : Prop :=
  forall query tr image tr',
    fetched E query temp_img tr image -> image_parse E tr' image = Returned tt.

(** The presentation file can be written. *)
Definition writable (E : Env) (output_file : string) : Prop :=
  forall tr, file_save E tr output_file = Returned tt.

(** Events of a fetch among which there is neither a request for an image
    query nor a look-up of the key. *)
Definition quiet_fetch (evs : list event) : Prop :=
  Forall image_event evs /\ image_queries evs = [] /\ key_lookups evs = 0%nat.

(** The slide [s] with the room made for a picture, and with the
    picture. *)
Definition narrowed (s : slide) (wd : Z) : slide :=
  Slide (layout s) (title_run s) (subtitle_run s) (bullets s) (Some wd)
        (caption_run s) (picture_of s).

Definition with_picture (s : slide) (pic : picture) : slide :=
  Slide (layout s) (title_run s) (subtitle_run s) (bullets s) (body_width s)
        (caption_run s) (Some pic).


(** The presentation library raises [e] on a photo that [download_image]
    has fetched. *)
Definition placement_fails (E : Env) (e : exn) : Prop :=
  exists query tr image tr',
    fetched E query temp_img tr image /\ image_parse E tr' image = Raised e.

(** The animal kingdom on a machine with both keys, on which the search
    request fails: [requests] finds no connection adapter for the text
    of [pexels_url], which does not start with a scheme. *)
Definition animal_keyed_env : Env :=
  static_env (Returned animal_text) (Returned "  a cat ") animal_loads
    (Some "secret")
    (Raised (ServiceError "No connection adapters were found"))
    (Raised (ServiceError "unused")) (Returned tt) (Raised not_a_picture).

(** The bytes of a picture: a GIF of one pixel. *)
Definition small_gif : string :=
  string_of_list_ascii
    (ascii_of_nat <$>
     [71; 73; 70; 56; 57; 97; 1; 0; 1; 0; 0; 0; 0; 33; 249; 4; 1; 10; 0; 1; 0;
      44; 0; 0; 0; 0; 1; 0; 1; 0; 0; 2; 2; 76; 1; 0; 59]%nat).

(** A machine with a key, on which the photo service finds one photo,
    the download delivers a picture and the presentation library
    recognises it. *)
Definition pictured_env (outline_response : outcome string)
    (loads : string -> option value) : Env :=
  static_env outline_response (Returned "  a cat ") loads (Some "secret")
    (Returned (VDict {[ "photos" :=
       VList [VDict {[ "src" := VDict {[ "original" := VStr photo_url ]} ]}] ]}))
    (Returned small_gif) (Returned tt) (Returned tt).

Definition animal_pictured_env : Env :=
  pictured_env (Returned animal_text) animal_loads.

(** * Properties *)

(** ** Strings *)

#[local] Arguments String.append !_ _ : simpl nomatch.
#[local] Arguments Ascii.eqb : simpl never.

Section StringFacts.

Import Py.

Lemma append_nil_r (s : string) : s +:+ EmptyString = s.
Proof. induction s as [|c s IH]; simpl; [reflexivity | now rewrite IH]. Qed.

Lemma append_assoc (a b c : string) : (a +:+ b) +:+ c = a +:+ (b +:+ c).
Proof. induction a as [|x a IH]; simpl; [reflexivity | now rewrite IH]. Qed.

Lemma startswith_append (pre r : string) : startswith pre (pre +:+ r) = true.
Proof.
  induction pre as [|c pre IH]; simpl; [reflexivity|].
  now rewrite Ascii.eqb_refl, IH.
Qed.

Lemma startswith_weaken (pre s r : string) :
  startswith pre s = true -> startswith pre (s +:+ r) = true.
Proof.
  revert s. induction pre as [|c pre IH]; intros [|d s]; simpl; try easy.
  intros [H1 H2]%andb_prop. rewrite H1. simpl. now apply IH.
Qed.

Lemma startswith_split (pre s : string) :
  startswith pre s = true -> s = pre +:+ drop (String.length pre) s.
Proof.
  revert s. induction pre as [|c pre IH]; intros [|d s]; simpl; try easy.
  intros [H1 H2]%andb_prop. apply Ascii.eqb_eq in H1. subst d.
  f_equal. now apply IH.
Qed.

Lemma startswith_trans (p q s : string) :
  startswith p q = true -> startswith q s = true -> startswith p s = true.
Proof.
  revert q s. induction p as [|c p IH]; intros [|d q] [|e s]; simpl; try easy.
  intros [H1 H2]%andb_prop [H3 H4]%andb_prop.
  apply Ascii.eqb_eq in H1, H3. subst. rewrite Ascii.eqb_refl. simpl. eauto.
Qed.

Lemma partition_unfold (sep s : string) :
  partition sep s =
  if startswith sep s then Some (EmptyString, drop (String.length sep) s)
  else match s with
       | EmptyString => None
       | String c s' =>
           match partition sep s' with
           | Some (a, b) => Some (String c a, b)
           | None => None
           end
       end.
Proof. destruct s; reflexivity. Qed.

(** [partition] cuts the string at an occurrence of the separator. *)
Lemma partition_Some (sep s a b : string) :
  partition sep s = Some (a, b) -> s = a +:+ sep +:+ b.
Proof.
  revert a b. induction s as [|c s IH]; intros a b; rewrite partition_unfold.
  - destruct (startswith sep EmptyString) eqn:Hp; [|easy].
    intros [= <- <-]. now apply startswith_split in Hp.
  - destruct (startswith sep (String c s)) eqn:Hp.
    + intros [= <- <-]. now apply startswith_split in Hp.
    + destruct (partition sep s) as [[a' b']|]; [|easy].
      intros [= <- <-]. simpl. f_equal. now apply IH.
Qed.

(** The occurrence is the leftmost one: the text before it has none. *)
Lemma partition_before (sep s a b : string) :
  sep <> EmptyString ->
  partition sep s = Some (a, b) -> partition sep a = None.
Proof.
  intros Hsep. revert a b.
  induction s as [|c s IH]; intros a b; rewrite partition_unfold.
  - destruct sep; [easy|]. simpl. easy.
  - destruct (startswith sep (String c s)) eqn:Hp.
    + intros [= <- <-]. destruct sep; [easy | reflexivity].
    + destruct (partition sep s) as [[a' b']|] eqn:Hs; [|easy].
      intros [= <- <-]. rewrite partition_unfold.
      destruct (startswith sep (String c a')) eqn:Hp'.
      * apply partition_Some in Hs. subst s.
        apply (startswith_weaken _ _ (sep +:+ b')) in Hp'. simpl in Hp'. congruence.
      * now rewrite (IH a' b').
Qed.

(** Every occurrence is found. *)
Lemma partition_complete (sep l r : string) :
  partition sep (l +:+ sep +:+ r) <> None.
Proof.
  induction l as [|c l IH]; rewrite partition_unfold; simpl.
  - now rewrite startswith_append.
  - destruct (startswith sep (String c (l +:+ sep +:+ r))); [easy|].
    destruct (partition sep (l +:+ sep +:+ r)) as [[a b]|]; easy.
Qed.

Lemma contains_true (sub s : string) :
  contains sub s = true <-> exists l r, s = l +:+ sub +:+ r.
Proof.
  unfold contains. split.
  - destruct (partition sub s) as [[a b]|] eqn:Hp; [|easy].
    intros _. exists a, b. now apply partition_Some.
  - intros (l & r & ->). pose proof (partition_complete sub l r) as H.
    destruct (partition sub (l +:+ sub +:+ r)); easy.
Qed.

Lemma contains_context (sub l m r : string) :
  contains sub m = true -> contains sub (l +:+ m +:+ r) = true.
Proof.
  rewrite !contains_true. intros (x & y & ->).
  exists (l +:+ x), (y +:+ r). now rewrite !append_assoc.
Qed.

Lemma contains_longer (sub ext s : string) :
  contains (sub +:+ ext) s = true -> contains sub s = true.
Proof.
  rewrite !contains_true. intros (x & y & ->).
  exists x, (ext +:+ y). now rewrite !append_assoc.
Qed.

Lemma lstrip_by_suffix (p : ascii -> bool) (s : string) :
  exists l, s = l +:+ lstrip_by p s.
Proof.
  induction s as [|c s [l IH]]; simpl.
  - now exists EmptyString.
  - destruct (p c).
    + exists (String c l). simpl. now f_equal.
    + now exists EmptyString.
Qed.

Lemma rstrip_by_prefix (p : ascii -> bool) (s : string) :
  exists r, s = rstrip_by p s +:+ r.
Proof.
  induction s as [|c s [r IH]]; simpl.
  - now exists EmptyString.
  - destruct (rstrip_by p s) as [|d t] eqn:Hr.
    + destruct (p c).
      * now exists (String c s).
      * exists r. simpl. now f_equal.
    + exists r. simpl. now f_equal.
Qed.

Lemma contains_strip_by (p : ascii -> bool) (sub s : string) :
  contains sub (strip_by p s) = true -> contains sub s = true.
Proof.
  intros H. unfold strip_by in H.
  destruct (lstrip_by_suffix p s) as [l Hl].
  destruct (rstrip_by_prefix p (lstrip_by p s)) as [r Hr].
  rewrite Hl, Hr. now apply contains_context.
Qed.

Lemma rstrip_by_idem (p : ascii -> bool) (s : string) :
  rstrip_by p (rstrip_by p s) = rstrip_by p s.
Proof.
  induction s as [|c s IH]; simpl; [reflexivity|].
  destruct (rstrip_by p s) as [|d t] eqn:Hr.
  - destruct (p c) eqn:Hc; simpl; [reflexivity | now rewrite Hc].
  - change (rstrip_by p (String c (String d t))) with
      (match rstrip_by p (String d t) with
       | EmptyString => if p c then EmptyString else String c EmptyString
       | r => String c r
       end).
    now rewrite IH.
Qed.

Lemma lstrip_by_idem (p : ascii -> bool) (s : string) :
  lstrip_by p (lstrip_by p s) = lstrip_by p s.
Proof.
  induction s as [|c s IH]; simpl; [reflexivity|].
  destruct (p c) eqn:Hc; [exact IH | simpl; now rewrite Hc].
Qed.

Lemma lstrip_rstrip_comm (p : ascii -> bool) (s : string) :
  lstrip_by p (rstrip_by p s) = rstrip_by p (lstrip_by p s).
Proof.
  induction s as [|c s IH]; simpl; [reflexivity|].
  destruct (p c) eqn:Hc.
  - rewrite <- IH. destruct (rstrip_by p s) as [|d t]; simpl; now rewrite ?Hc.
  - simpl. destruct (rstrip_by p s) as [|d t]; simpl; now rewrite ?Hc.
Qed.

Lemma strip_by_idem (p : ascii -> bool) (s : string) :
  strip_by p (strip_by p s) = strip_by p s.
Proof.
  unfold strip_by.
  now rewrite lstrip_rstrip_comm, lstrip_by_idem, rstrip_by_idem.
Qed.

(** White space at the end is dropped by [rstrip]. *)
Lemma rstrip_by_space_r (p : ascii -> bool) (s : string) (c : ascii) :
  p c = true -> rstrip_by p (s +:+ String c EmptyString) = rstrip_by p s.
Proof.
  intros Hc. induction s as [|d s IH]; simpl.
  - now rewrite Hc.
  - now rewrite IH.
Qed.

(** [rstrip] leaves a string that ends in a character outside the set. *)
Lemma rstrip_by_keep (p : ascii -> bool) (s : string) (c : ascii) :
  p c = false ->
  rstrip_by p (s +:+ String c EmptyString) = s +:+ String c EmptyString.
Proof.
  intros Hc. induction s as [|d s IH]; simpl.
  - now rewrite Hc.
  - rewrite IH. destruct s; reflexivity.
Qed.

Lemma split_item0 (sep s : string) :
  item (split sep s) 0 = Returned (first_piece sep s).
Proof.
  unfold split, first_piece. destruct (String.length s) eqn:Hn; simpl.
  - destruct s; [|easy]. rewrite partition_unfold.
    destruct (startswith sep EmptyString); [|reflexivity].
    reflexivity.
  - destruct (partition sep s) as [[a b]|]; reflexivity.
Qed.

Lemma split_upto_head (n : nat) (sep s : string) :
  sep <> EmptyString -> (String.length s <= n)%nat ->
  head (split_upto n sep s) = Some (first_piece sep s).
Proof.
  intros Hsep Hn. unfold first_piece. destruct n; simpl.
  - destruct s; [|simpl in Hn; lia].
    destruct sep; [easy | reflexivity].
  - destruct (partition sep s) as [[a b]|]; reflexivity.
Qed.

Lemma length_append (a b : string) :
  String.length (a +:+ b) = (String.length a + String.length b)%nat.
Proof. induction a as [|c a IH]; simpl; [reflexivity | now rewrite IH]. Qed.

Lemma split_item1 (sep s a b : string) :
  sep <> EmptyString ->
  partition sep s = Some (a, b) ->
  item (split sep s) 1 = Returned (first_piece sep b).
Proof.
  intros Hsep Hp. unfold split.
  pose proof (partition_Some _ _ _ _ Hp) as Hs.
  assert (Hlen : (String.length b < String.length s)%nat).
  { rewrite Hs, !length_append. destruct sep; [easy | simpl; lia]. }
  destruct (String.length s) as [|n] eqn:Hn; [lia|].
  simpl. rewrite Hp. unfold item.
  assert (Hh : head (split_upto n sep b) = Some (first_piece sep b))
    by (apply split_upto_head; [assumption | lia]).
  rewrite head_lookup in Hh.
  replace ((a :: split_upto n sep b) !! 1%nat)
    with (split_upto n sep b !! 0%nat) by reflexivity.
  now rewrite Hh.
Qed.

Lemma first_piece_clean (sep s : string) :
  sep <> EmptyString -> contains sep (first_piece sep s) = false.
Proof.
  intros Hsep. unfold first_piece, contains.
  destruct (partition sep s) as [[a b]|] eqn:Hp.
  - now rewrite (partition_before _ _ _ _ Hsep Hp).
  - now rewrite Hp.
Qed.

End StringFacts.

(** ** Fence stripping *)

Section Fences.

Import Py.

Lemma fence_nonempty : fence <> EmptyString.
Proof. discriminate. Qed.

Lemma json_fence_nonempty : json_fence <> EmptyString.
Proof. discriminate. Qed.

Lemma contains_json_fence (s : string) :
  contains json_fence s = true -> contains fence s = true.
Proof. apply (contains_longer fence "json"). Qed.

Lemma contains_strip (sub s : string) :
  contains sub s = false -> contains sub (strip s) = false.
Proof.
  intros H. destruct (contains sub (strip s)) eqn:Hc; [|reflexivity].
  apply contains_strip_by in Hc. congruence.
Qed.

(** What [strip_fences] returns, branch by branch: it never raises. *)
Lemma strip_fences_cases (content : string) :
  (contains json_fence content = true /\
   exists a b, partition json_fence content = Some (a, b) /\
     strip_fences content =
     Returned (strip (first_piece fence (first_piece json_fence b)))) \/
  (contains json_fence content = false /\ contains fence content = true /\
   exists a b, partition fence content = Some (a, b) /\
     strip_fences content = Returned (strip (first_piece fence b))) \/
  (contains fence content = false /\ strip_fences content = Returned content).
Proof.
  unfold strip_fences.
  destruct (contains json_fence content) eqn:Hj.
  - left. split; [reflexivity|]. unfold contains in Hj.
    destruct (partition json_fence content) as [[a b]|] eqn:Hp; [|easy].
    exists a, b. split; [reflexivity|].
    rewrite (split_item1 _ _ _ _ json_fence_nonempty Hp).
    now rewrite split_item0.
  - destruct (contains fence content) eqn:Hf.
    + right. left. repeat split. unfold contains in Hf.
      destruct (partition fence content) as [[a b]|] eqn:Hp; [|easy].
      exists a, b. split; [reflexivity|].
      now rewrite (split_item1 _ _ _ _ fence_nonempty Hp).
    + right. right. now split.
Qed.

Lemma strip_fences_total (content : string) :
  exists c, strip_fences content = Returned c.
Proof.
  destruct (strip_fences_cases content)
    as [(_ & a & b & _ & H) | [(_ & _ & a & b & _ & H) | [_ H]]]; eauto.
Qed.

(** A text is settled when it has no white space around it and no fence
    in it: nothing is left to strip. *)
Lemma settled_fixed (c : string) :
  strip c = c -> contains fence c = false -> response_content c = Returned c.
Proof.
  intros Hs Hf. unfold response_content. rewrite Hs.
  destruct (strip_fences_cases c) as [[H _] | [(_ & H & _) | [_ H]]].
  - apply contains_json_fence in H. congruence.
  - congruence.
  - exact H.
Qed.

Lemma response_content_settled (text c : string) :
  response_content text = Returned c ->
  strip c = c /\ contains fence c = false.
Proof.
  unfold response_content.
  destruct (strip_fences_cases (strip text))
    as [(_ & a & b & _ & H) | [(_ & _ & a & b & _ & H) | [Hf H]]];
    rewrite H; intros [= <-].
  - split; [apply strip_by_idem|].
    apply contains_strip, first_piece_clean, fence_nonempty.
  - split; [apply strip_by_idem|].
    apply contains_strip, first_piece_clean, fence_nonempty.
  - split; [apply strip_by_idem | exact Hf].
Qed.

Lemma response_content_total (text : string) :
  exists c, response_content text = Returned c.
Proof. apply strip_fences_total. Qed.

(** Fence stripping is idempotent. *)
Lemma response_content_idem (text c : string) :
  response_content text = Returned c -> response_content c = Returned c.
Proof.
  intros H. apply response_content_settled in H as [Hs Hf].
  now apply settled_fixed.
Qed.

End Fences.

Section Fenced.

Import Py.

(** A line feed after [s] stops any fence that would start in [s]. *)
Lemma startswith_fence_nl (s r : string) :
  startswith fence s = false -> startswith fence (s +:+ nl +:+ r) = false.
Proof.
  destruct s as [|a [|b [|c s]]]; simpl; intros H.
  - reflexivity.
  - destruct (Ascii.eqb "`" a); reflexivity.
  - destruct (Ascii.eqb "`" a), (Ascii.eqb "`" b); reflexivity.
  - exact H.
Qed.

Lemma partition_None_inv (sep : string) (c : ascii) (s : string) :
  partition sep (String c s) = None ->
  startswith sep (String c s) = false /\ partition sep s = None.
Proof.
  rewrite partition_unfold.
  destruct (startswith sep (String c s)); [easy|].
  destruct (partition sep s) as [[a b]|]; easy.
Qed.

(** In a fence-free text followed by a closing fence on its own line,
    the closing fence is the first fence, and no [```json] occurs. *)
Lemma closing_fence (t : string) :
  partition fence t = None ->
  partition fence (t +:+ nl +:+ fence) = Some (t +:+ nl, EmptyString) /\
  partition json_fence (t +:+ nl +:+ fence) = None.
Proof.
  induction t as [|c t IH]; intros H.
  - split; reflexivity.
  - apply partition_None_inv in H as [Hs Hp].
    destruct (IH Hp) as [IH1 IH2].
    pose proof (startswith_fence_nl _ fence Hs) as Hs'.
    change (String c t +:+ nl +:+ fence)
      with (String c (t +:+ nl +:+ fence)) in *.
    split.
    + now rewrite partition_unfold, Hs', IH1.
    + rewrite partition_unfold.
      destruct (startswith json_fence (String c (t +:+ nl +:+ fence))) eqn:Hj.
      * assert (startswith fence (String c (t +:+ nl +:+ fence)) = true)
          by (eapply startswith_trans; [|exact Hj]; reflexivity).
        congruence.
      * now rewrite IH2.
Qed.

Lemma strip_fenced (t : string) : strip (fenced t) = fenced t.
Proof.
  unfold strip, strip_by.
  assert (Hl : lstrip_by isspace (fenced t) = fenced t) by reflexivity.
  assert (He : fenced t = (json_fence +:+ nl +:+ t +:+ nl +:+ "``") +:+ "`").
  { unfold fenced. now rewrite !append_assoc. }
  rewrite Hl, He. apply rstrip_by_keep. reflexivity.
Qed.

Lemma strip_between_lines (t : string) : strip (nl +:+ t +:+ nl) = strip t.
Proof.
  unfold strip, strip_by. simpl lstrip_by.
  rewrite <- lstrip_rstrip_comm. unfold nl.
  rewrite rstrip_by_space_r by reflexivity.
  apply lstrip_rstrip_comm.
Qed.

(** A fence-free text is left alone, up to the white space around it. *)
Lemma response_content_plain (t : string) :
  contains fence t = false -> response_content t = Returned (strip t).
Proof.
  intros H.
  pose proof (settled_fixed (strip t) (strip_by_idem _ _) (contains_strip _ _ H))
    as Hx.
  unfold response_content in *.
  now rewrite (strip_by_idem isspace t : strip (strip t) = strip t) in Hx.
Qed.

(** The fences around a fence-free text are taken off. *)
Lemma response_content_fenced (t : string) :
  contains fence t = false -> response_content (fenced t) = Returned (strip t).
Proof.
  intros H. unfold response_content. rewrite strip_fenced.
  assert (Hp : partition fence t = None).
  { unfold contains in H. destruct (partition fence t); easy. }
  destruct (closing_fence t Hp) as [H1 H2].
  assert (Hcut : partition json_fence (fenced t)
                 = Some (EmptyString, nl +:+ t +:+ nl +:+ fence)) by reflexivity.
  assert (Hrest1 : partition json_fence (nl +:+ t +:+ nl +:+ fence) = None).
  { change (nl +:+ t +:+ nl +:+ fence)
      with (String "010" (t +:+ nl +:+ fence)).
    rewrite partition_unfold.
    change (startswith json_fence (String "010" (t +:+ nl +:+ fence)))
      with false.
    now rewrite H2. }
  assert (Hrest2 : partition fence (nl +:+ t +:+ nl +:+ fence)
                   = Some (nl +:+ t +:+ nl, EmptyString)).
  { change (nl +:+ t +:+ nl +:+ fence)
      with (String "010" (t +:+ nl +:+ fence)).
    rewrite partition_unfold.
    change (startswith fence (String "010" (t +:+ nl +:+ fence)))
      with false.
    now rewrite H1. }
  unfold strip_fences, contains. rewrite Hcut.
  rewrite (split_item1 _ _ _ _ json_fence_nonempty Hcut), split_item0.
  unfold first_piece at 2. rewrite Hrest1.
  unfold first_piece. rewrite Hrest2.
  now rewrite strip_between_lines.
Qed.

End Fenced.

(** ** Running methods *)

(** A generator needs its key; with one, it starts from the fresh world. *)
Lemma new_generator_fresh :
  new_generator VNone ∅ = Raised ValueError /\
  new_generator (VStr EmptyString) ∅ = Raised ValueError /\
  new_generator (VStr "key") ∅ = Returned fresh.
Proof. repeat split. Qed.

Lemma logged_logged (w : world) (a b : list event) :
  logged (logged w a) b = logged w (a ++ b).
Proof. unfold logged. simpl. now rewrite app_assoc. Qed.

Lemma logged_nil (w : world) : logged w [] = w.
Proof. destruct w. unfold logged. simpl. now rewrite app_nil_r. Qed.

Ltac run :=
  repeat (progress
    (unfold bind, ret, raise, lift, print, log, call, attempt, try_except;
     simpl)).

(** ** generate_content_outline *)

Section Outline.

Context (E : Env) (topic : string) (num_slides : Z) (w : world).

Let prompt := OutlinePrompt topic num_slides.

(** The outline step, once the model has answered. *)
Lemma outline_of_response (text c : string) :
  model_generate E (trace w) prompt = Returned text ->
  response_content text = Returned c ->
  generate_content_outline E topic num_slides w =
  if is_array_text c then
    match json_loads E c with
    | Some v => (Returned v, logged w [CallModel prompt; CallJsonLoads c])
    | None =>
        (Returned VNone,
         logged w [CallModel prompt; CallJsonLoads c;
                   Printed (MsgJSONDecodeError c)])
    end
  else (Returned VNone, logged w [CallModel prompt; Printed MsgInvalidArray]).
Proof.
  intros Hm Hc. unfold generate_content_outline, response_content in *.
  unfold bind at 1, attempt, call. fold prompt. rewrite Hm, Hc.
  unfold is_array_text.
  destruct (Py.startswith "[" c), (Py.endswith "]" c); simpl;
    try (run; now rewrite logged_logged).
  unfold call_json_loads. run.
  destruct (json_loads E c); run; now rewrite !logged_logged.
Qed.

(** The outline step, when the request fails: nothing is parsed. *)
Lemma outline_of_failure (e : exn) :
  model_generate E (trace w) prompt = Raised e ->
  generate_content_outline E topic num_slides w =
  match e with
  | JSONDecodeError => (Raised UnboundLocalError, logged w [CallModel prompt])
  | _ => (Returned VNone,
          logged w [CallModel prompt; Printed (MsgOutlineError e)])
  end.
Proof.
  intros Hm. unfold generate_content_outline.
  unfold bind at 1, attempt, call. fold prompt. rewrite Hm.
  destruct e; run; now rewrite ?logged_logged.
Qed.

(** The outline step leaves the deck, the files and the saved
    presentations alone. *)
Lemma outline_keeps_deck (r : outcome value) (w' : world) :
  generate_content_outline E topic num_slides w = (r, w') ->
  slides w' = slides w /\ files w' = files w /\ saved w' = saved w /\
  exists evs, trace w' = trace w ++ evs.
Proof.
  destruct (model_generate E (trace w) prompt) as [e|text] eqn:Hm.
  - rewrite (outline_of_failure e Hm).
    destruct e; intros [= <- <-]; simpl; eauto 10.
  - destruct (response_content_total text) as [c Hc].
    rewrite (outline_of_response text c Hm Hc).
    destruct (is_array_text c); [destruct (json_loads E c)|];
      intros [= <- <-]; simpl; eauto 10.
Qed.

End Outline.

(** C2. Whatever the model answers, the outline step returns [None] and
    raises nothing when the text left by fence stripping does not both
    start with an opening bracket and end with a closing one - a JSON
    object included; the check comes first, [json.loads] is not called in
    that case. The parsed value is returned only when the check passes and
    [json.loads] succeeds on that text. *)
Theorem outline_array_check (E : Env) (topic : string) (num_slides : Z)
    (w : world) (text : string) :
  model_generate E (trace w) (OutlinePrompt topic num_slides) = Returned text ->
  exists c, response_content text = Returned c /\
    (is_array_text c = false ->
     generate_content_outline E topic num_slides w =
     (Returned VNone,
      logged w [CallModel (OutlinePrompt topic num_slides);
                Printed MsgInvalidArray])) /\
    (forall v, is_array_text c = true -> json_loads E c = Some v ->
     generate_content_outline E topic num_slides w =
     (Returned v,
      logged w [CallModel (OutlinePrompt topic num_slides); CallJsonLoads c])) /\
    (forall v w', generate_content_outline E topic num_slides w = (Returned v, w') ->
     v <> VNone -> is_array_text c = true /\ json_loads E c = Some v) /\
    (exists v w', generate_content_outline E topic num_slides w = (Returned v, w')).
Proof.
  intros Hm. destruct (response_content_total text) as [c Hc].
  exists c. split; [exact Hc|].
  rewrite (outline_of_response E topic num_slides w text c Hm Hc).
  destruct (is_array_text c).
  - split; [easy|]. split; [|split].
    + intros v _ ->. reflexivity.
    + intros v w'. destruct (json_loads E c); intros [= <- <-]; easy.
    + destruct (json_loads E c); eauto.
  - split; [easy|]. split; [easy|]. split.
    + intros v w' [= <- <-]. easy.
    + eauto.
Qed.

Lemma outline_array_check_witness :
  model_generate object_env (trace fresh) (OutlinePrompt "Animal Kingdom" 3)
  = Returned object_text /\
  json_loads object_env object_text = Some (VDict {[ "a" := VInt 1 ]}) /\
  generate_content_outline object_env "Animal Kingdom" 3 fresh =
  (Returned VNone,
   logged fresh [CallModel (OutlinePrompt "Animal Kingdom" 3);
                 Printed MsgInvalidArray]).
Proof.
  split; [reflexivity|]. split; [reflexivity|].
  destruct (outline_array_check object_env "Animal Kingdom" 3 fresh object_text
              eq_refl) as (c & Hc & Hreject & _).
  apply Hreject.
  vm_compute in Hc. injection Hc as <-. reflexivity.
Defined.

(** C6, as stated, fails: the array [["```[1, 2]```"]] is read as [[1, 2]]
    when it comes bare, and is rejected when it comes between fences. *)
Lemma fenced_outline_differs :
  quoted_fence_loads quoted_fence_text = Some (VList [VStr "```[1, 2]```"]) /\
  fst (generate_content_outline quoted_fence_env "Animal Kingdom" 3 fresh)
  = Returned (VList [VInt 1; VInt 2]) /\
  fst (generate_content_outline quoted_fence_env_fenced "Animal Kingdom" 3 fresh)
  = Returned VNone.
Proof. repeat split; vm_compute; reflexivity. Qed.

(** C6, amended. For every text [t] without a fence marker in it, the
    outline step gives the same result - the same parsed list, in the same
    order, and the same trace - on [t] between [```json] and [```] lines as
    on [t] itself; and fence stripping is idempotent on every text. *)
Theorem fenced_outline_same (E1 E2 : Env) (topic : string) (num_slides : Z)
    (w : world) (t : string) :
  Py.contains fence t = false ->
  model_generate E1 (trace w) (OutlinePrompt topic num_slides) = Returned t ->
  model_generate E2 (trace w) (OutlinePrompt topic num_slides)
  = Returned (fenced t) ->
  json_loads E2 = json_loads E1 ->
  generate_content_outline E2 topic num_slides w
  = generate_content_outline E1 topic num_slides w /\
  forall text, exists c,
    response_content text = Returned c /\ response_content c = Returned c.
Proof.
  intros Hf H1 H2 Hl. split.
  - rewrite (outline_of_response E1 topic num_slides w t _ H1
               (response_content_plain t Hf)).
    rewrite (outline_of_response E2 topic num_slides w (fenced t) _ H2
               (response_content_fenced t Hf)).
    now rewrite Hl.
  - intros text. destruct (response_content_total text) as [c Hc].
    exists c. split; [exact Hc|]. now apply response_content_idem in Hc.
Qed.

Lemma fenced_outline_same_witness :
  Py.contains fence pair_text = false /\
  generate_content_outline pair_env_fenced "Animal Kingdom" 3 fresh
  = generate_content_outline pair_env "Animal Kingdom" 3 fresh /\
  fst (generate_content_outline pair_env "Animal Kingdom" 3 fresh)
  = Returned (VList [VInt 1; VInt 2]).
Proof.
  split; [reflexivity|]. split.
  - apply (fenced_outline_same pair_env pair_env_fenced "Animal Kingdom" 3
             fresh pair_text); reflexivity.
  - vm_compute. reflexivity.
Defined.

(** ** generate_image_description *)

Lemma image_description_run (E : Env) (content : value) (w : world) :
  generate_image_description E content w =
  match vision_generate E (trace w) (ImageQueryPrompt content) with
  | Returned text =>
      (Returned (Py.strip text), logged w [CallVision (ImageQueryPrompt content)])
  | Raised e =>
      (Returned fallback_query,
       logged w [CallVision (ImageQueryPrompt content);
                 Printed (MsgImageDescError e)])
  end.
Proof.
  unfold generate_image_description. run.
  destruct (vision_generate E (trace w) (ImageQueryPrompt content));
    run; now rewrite ?logged_logged.
Qed.

Lemma image_queries_app (a b : list event) :
  image_queries (a ++ b) = image_queries a ++ image_queries b.
Proof.
  induction a as [|ev a IH]; simpl; [reflexivity|].
  destruct ev as [| |[|c]| | | | | | |]; simpl; now rewrite ?IH.
Qed.

Lemma key_lookups_app (a b : list event) :
  key_lookups (a ++ b) = (key_lookups a + key_lookups b)%nat.
Proof.
  induction a as [|ev a IH]; simpl; [reflexivity|].
  destruct ev; simpl; try exact IH.
  destruct (String.eqb name "PEXELS_API_KEY"); simpl; now rewrite ?IH.
Qed.

Lemma quiet_fetch_nil : quiet_fetch [].
Proof. repeat split. constructor. Qed.

Lemma quiet_fetch_app (a b : list event) :
  quiet_fetch a -> quiet_fetch b -> quiet_fetch (a ++ b).
Proof.
  intros (Ha & Hqa & Hka) (Hb & Hqb & Hkb). split; [|split].
  - apply Forall_app. now split.
  - now rewrite image_queries_app, Hqa, Hqb.
  - now rewrite key_lookups_app, Hka, Hkb.
Qed.

(** The image query is asked for once, and nothing is raised. *)
Lemma image_description_frame (E : Env) (content : value) (w : world) :
  exists query evs,
    generate_image_description E content w =
    (Returned query, logged w (CallVision (ImageQueryPrompt content) :: evs)) /\
    quiet_fetch evs.
Proof.
  rewrite image_description_run.
  destruct (vision_generate E (trace w) (ImageQueryPrompt content));
    eexists _, _; (split; [reflexivity|]); repeat split; repeat constructor.
Qed.

(** C8. When the request of [generate_image_description] raises, the
    method returns the phrase "abstract technology background"; whatever
    the slide content and whatever the service does, it returns a string
    and raises nothing. *)
Theorem image_description_never_raises (E : Env) (content : value) (w : world) :
  (forall e,
     vision_generate E (trace w) (ImageQueryPrompt content) = Raised e ->
     generate_image_description E content w =
     (Returned "abstract technology background",
      logged w [CallVision (ImageQueryPrompt content);
                Printed (MsgImageDescError e)])) /\
  (forall text,
     vision_generate E (trace w) (ImageQueryPrompt content) = Returned text ->
     generate_image_description E content w =
     (Returned (Py.strip text),
      logged w [CallVision (ImageQueryPrompt content)])) /\
  exists query w',
    generate_image_description E content w = (Returned query, w').
Proof.
  rewrite image_description_run. repeat split.
  - now intros e ->.
  - now intros text ->.
  - destruct (vision_generate E (trace w) (ImageQueryPrompt content)); eauto.
Qed.

Lemma image_description_never_raises_witness :
  vision_generate pair_env (trace fresh)
    (ImageQueryPrompt (VStr "- Warm blooded"))
  = Raised (ServiceError "offline") /\
  fst (generate_image_description pair_env
         (VStr "- Warm blooded") fresh)
  = Returned "abstract technology background".
Proof.
  split; [reflexivity|].
  destruct (image_description_never_raises
              pair_env
              (VStr "- Warm blooded") fresh) as [Hfail _].
  now rewrite (Hfail (ServiceError "offline") eq_refl).
Defined.

(** ** download_image *)

Section Download.

Context (E : Env) (query save_path : string) (w : world).

Let key : value :=
  match getenv E (trace w) "PEXELS_API_KEY" with
  | Some s => VStr s
  | None => VNone
  end.

Let asked_key : list event := [CallGetenv "PEXELS_API_KEY"].
Let searched : list event :=
  [CallGetenv "PEXELS_API_KEY"; CallSearch pexels_url key query].




Ltac returns_none :=
  left; rewrite ?logged_logged; eexists _, _;
  split; [reflexivity|]; simpl; rewrite <- ?app_assoc; simpl;
  repeat split; try reflexivity; repeat constructor.

(** The two ways out of [download_image]: [None], with the files as they
    were; or the path, with the photo in the file. Either way the deck is
    untouched and the events are those of a fetch, the look-up of the key
    first. *)
Lemma download_image_cases :
  (exists w' evs, download_image E query save_path w = (Returned VNone, w') /\
     slides w' = slides w /\ files w' = files w /\ saved w' = saved w /\
     trace w' = trace w ++ CallGetenv "PEXELS_API_KEY" :: evs /\
     Forall image_event evs /\
     image_queries evs = [] /\ key_lookups evs = 0%nat) \/
  (exists data photos photo src url image,
     truthy key = true /\
     http_get_json E (trace w ++ asked_key) pexels_url key query = Returned data /\
     getitem data "photos" = Returned photos /\ truthy photos = true /\
     getitem0 photos = Returned photo /\
     getitem photo "src" = Returned src /\
     getitem src "original" = Returned url /\
     http_get_content E (trace w ++ searched) url = Returned image /\
     file_write E (trace w ++ searched ++ [CallFetch url]) save_path
     = Returned tt /\
     download_image E query save_path w =
     (Returned (VStr save_path),
      World (trace w ++ searched ++ [CallFetch url; CallOpen save_path])
            (slides w) (<[save_path := image]> (files w)) (saved w))).
Proof.
  unfold download_image, os_getenv, write_file. run. fold key.
  destruct (truthy key) eqn:Hk; run; [|returns_none].
  destruct (http_get_json E (trace w ++ [CallGetenv "PEXELS_API_KEY"])
              pexels_url key query) as [e|data] eqn:Hd; run; [returns_none|].
  destruct (dict_get data "photos" VNone) as [e|photos'] eqn:Hg; run;
    [returns_none|].
  destruct (truthy photos') eqn:Ht; run; [|returns_none].
  destruct (getitem data "photos") as [e|photos] eqn:Hp; run; [returns_none|].
  assert (photos' = photos) as ->.
  { destruct data; try discriminate. simpl in Hg, Hp.
    destruct (d !! "photos"); simpl in *; congruence. }
  destruct (getitem0 photos) as [e|photo] eqn:H0; run; [returns_none|].
  destruct (getitem photo "src") as [e|src] eqn:Hs; run; [returns_none|].
  destruct (getitem src "original") as [e|url] eqn:Ho; run; [returns_none|].
  destruct (http_get_content E _ url) as [e|image] eqn:Hc; run;
    [returns_none|].
  destruct (file_write E _ save_path) as [e|[]] eqn:Hw; run; [returns_none|].
  right. exists data, photos, photo, src, url, image.
  unfold asked_key, searched. rewrite <- !app_assoc in *. simpl in *.
  repeat split; try assumption.
Qed.

(** When the search request answers, [dict.get] and the subscript read
    the same list of photos. *)
Lemma getitem_dict_get (data photos : value) (name : string) (dflt : value) :
  getitem data name = Returned photos ->
  dict_get data name dflt = Returned photos.
Proof.
  destruct data; try discriminate. simpl.
  destruct (_ !! name); simpl; congruence.
Qed.

(** A fetch that gets through makes [download_image] return the path. *)
Lemma download_fetched (image : string) :
  fetched E query save_path (trace w) image ->
  exists w', download_image E query save_path w = (Returned (VStr save_path), w').
Proof.
  intros (data & photos & photo & src & url & Hk & Hd & Hp & Ht & H0 & Hs & Ho
          & Hc & Hw).
  unfold pexels_key in *. fold key in Hk, Hd, Hc, Hw.
  unfold download_image, os_getenv, write_file. run. fold key.
  rewrite Hk. run. rewrite Hd. run.
  rewrite (getitem_dict_get _ _ _ VNone Hp), Ht. run. rewrite Hp. run.
  rewrite H0. run. rewrite Hs. run. rewrite Ho. run.
  rewrite <- !app_assoc in *. simpl in *.
  rewrite Hc. run. rewrite Hw. run. eexists. reflexivity.
Qed.

(** What a caller of [download_image] can rely on: nothing is raised, the
    deck is untouched, the key is looked up once; and either the result
    is [None], no photo has been fetched and the files are as they were,
    or it is the path, and the file holds the photo that has been
    fetched. *)
Lemma download_image_fetch :
  exists v w' evs,
    download_image E query save_path w = (Returned v, w') /\
    slides w' = slides w /\ saved w' = saved w /\
    trace w' = trace w ++ CallGetenv "PEXELS_API_KEY" :: evs /\
    quiet_fetch evs /\
    (v = VNone /\ files w' = files w /\
     (forall image, ~ fetched E query save_path (trace w) image) \/
     exists image, v = VStr save_path /\
       fetched E query save_path (trace w) image /\
       files w' = <[save_path := image]> (files w)).
Proof.
  destruct download_image_cases
    as [(w' & evs & H & Hs & Hf & Hv & Ht & He & Hq & Hk)
       | (data & photos & photo & src & url & image & H)].
  - exists VNone, w', evs. unfold quiet_fetch.
    do 5 (split; [auto; fail|]). left. split; [reflexivity|].
    split; [assumption|]. intros image [w'' Hrun]%download_fetched.
    rewrite H in Hrun. discriminate.
  - decompose [and] H. clear H.
    eexists _, _, _. split; [eassumption|]. simpl.
    split; [reflexivity|]. split; [reflexivity|]. split; [reflexivity|].
    split; [split; [repeat constructor | split; reflexivity]|].
    right. exists image. split; [reflexivity|]. split; [|reflexivity].
    exists data, photos, photo, src, url. cbv zeta. fold key.
    repeat split; assumption.
Qed.




End Download.




(** ** The renderers *)

Ltac fold_pushed :=
  repeat match goal with
  | |- context [World (trace ?w) (slides ?w ++ [?s]) (files ?w) (saved ?w)] =>
      change (World (trace w) (slides w ++ [s]) (files w) (saved w))
        with (pushed w s)
  end.

Lemma alter_last {A} (f : A -> A) (l : list A) (x : A) :
  alter f (length l) (l ++ [x]) = l ++ [f x].
Proof.
  rewrite <- (Nat.add_0_r (length l)) at 1. now rewrite alter_app_r.
Qed.

(** An update through the handle of the last slide. *)
Lemma update_last_slide (f : slide -> slide) (l : list slide) (s : slide)
    (w : world) :
  slides w = l ++ [s] ->
  update_slide (length l) f w =
  (Returned tt, World (trace w) (l ++ [f s]) (files w) (saved w)).
Proof. intros H. unfold update_slide. now rewrite H, alter_last. Qed.

Lemma update_pushed (f : slide -> slide) (s : slide) (w : world) :
  update_slide (length (slides w)) f (pushed w s) = (Returned tt, pushed w (f s)).
Proof. now rewrite (update_last_slide f (slides w) s). Qed.

Ltac deck :=
  repeat (progress
    (run; unfold update_slide, pushed; simpl; rewrite ?alter_last)).

Lemma create_title_slide_run (title subtitle : string) (w : world) :
  create_title_slide (VStr title) (VStr subtitle) w =
  (Returned tt, pushed w (title_slide title subtitle)).
Proof.
  unfold create_title_slide, add_slide, set_title, set_subtitle, title_slide.
  deck. destruct (String.eqb subtitle EmptyString); simpl; deck; reflexivity.
Qed.

(** The paragraphs of a content slide, added one by one. *)
Lemma add_paragraphs (points : list string) (s : slide) (w : world) :
  for_each points (fun point =>
    add_paragraph (length (slides w))
      (Py.strip (Py.strip_chars "- " point))
      (Style (Some 18) false false None false)) (pushed w s) =
  (Returned tt,
   pushed w (Slide (layout s) (title_run s) (subtitle_run s)
               (bullets s ++
                ((fun point =>
                    TextRun (Py.strip (Py.strip_chars "- " point))
                            (Style (Some 18) false false None false))
                 <$> points))
               (body_width s) (caption_run s) (picture_of s))).
Proof.
  revert s. induction points as [|point points IH]; intros s; simpl.
  - unfold ret. rewrite app_nil_r. now destruct s.
  - unfold bind, add_paragraph. rewrite update_pushed, IH. simpl.
    now rewrite <- app_assoc.
Qed.

(** A content slide up to the point where the picture is looked for. *)
Lemma content_slide_text (title content : string) (w : world) (k : nat -> M unit) :
  (slide <- add_slide 1 ;;
   set_title slide (VStr title)
     (Style (Some 32) true false (Some (0, 0, 128)) false) ;;;
   clear_body slide ;;;
   points <- lift (str_split (VStr content) Py.nl) ;;
   for_each points (fun point =>
     add_paragraph slide (Py.strip (Py.strip_chars "- " point))
       (Style (Some 18) false false None false)) ;;;
   k slide) w = k (length (slides w)) (pushed w (content_slide title content)).
Proof.
  unfold add_slide, set_title, clear_body. deck.
  fold_pushed. unfold bind. rewrite add_paragraphs. reflexivity.
Qed.

Lemma same_text_refl (s : slide) : same_text s s.
Proof. repeat split. Qed.

Lemma create_content_slide_unfold (E : Env) (title content : string)
    (include_image : bool) (w : world) :
  create_content_slide E (VStr title) (VStr content) include_image w =
  (if include_image then
     image_desc <- generate_image_description E (VStr content) ;;
     img_path <- download_image E image_desc temp_img ;;
     if truthy img_path then
       set_body_width (length (slides w)) (Inches 550) ;;;
       add_picture E (length (slides w)) img_path (Inches 425) (Inches 175)
         (Inches 400) ;;;
       os_remove img_path
     else ret tt
   else ret tt) (pushed w (content_slide title content)).
Proof.
  unfold create_content_slide.
  exact (content_slide_text title content w (fun slide =>
    if include_image then
      image_desc <- generate_image_description E (VStr content) ;;
      img_path <- download_image E image_desc temp_img ;;
      if truthy img_path then
        set_body_width slide (Inches 550) ;;;
        add_picture E slide img_path (Inches 425) (Inches 175) (Inches 400) ;;;
        os_remove img_path
      else ret tt
    else ret tt)).
Qed.

(** Without a picture, a content slide is its text and nothing happens
    outside the deck. *)
Lemma content_slide_no_image (E : Env) (title content : string) (w : world) :
  create_content_slide E (VStr title) (VStr content) false w =
  (Returned tt, pushed w (content_slide title content)).
Proof. now rewrite create_content_slide_unfold. Qed.

(** The picture is put on the last slide and its file is removed. *)
Lemma place_picture (E : Env) (l : list slide) (s : slide) (image : string)
    (left top height : Z) (w : world) :
  slides w = l ++ [s] -> files w !! temp_img = Some image ->
  image_parse E (trace w) image = Returned tt ->
  (add_picture E (length l) (VStr temp_img) left top height ;;;
   os_remove (VStr temp_img)) w =
  (Returned tt,
   World (trace w ++ [CallRemove temp_img])
         (l ++ [with_picture s (Picture image left top height)])
         (delete temp_img (files w)) (saved w)).
Proof.
  intros Hs Hf Hp. unfold add_picture, os_remove. run. rewrite Hf, Hp.
  rewrite (update_last_slide _ l s w Hs). simpl. now rewrite Hf.
Qed.

(** The library does not recognise a picture: its exception comes out,
    the slide stays as it is and the file stays on the disk. *)
Lemma picture_refused (E : Env) (sl : nat) (image : string) (e : exn)
    (left top height : Z) (w : world) :
  files w !! temp_img = Some image ->
  image_parse E (trace w) image = Raised e ->
  (add_picture E sl (VStr temp_img) left top height ;;;
   os_remove (VStr temp_img)) w = (Raised e, w).
Proof.
  intros Hf Hp. unfold add_picture. run. now rewrite Hf, Hp.
Qed.

(** The download and what follows it on the slide under construction, the
    last one of the deck: [prepare] makes room for the picture. Either no
    photo is fetched and nothing changes; or the photo is placed and its
    file removed; or the library refuses it, and then the exception
    escapes and the file is left behind. *)
Lemma fetch_and_place (E : Env) (query : string) (l : list slide) (s : slide)
    (f : slide -> slide) (prepare : M unit) (left top height : Z) (w : world) :
  slides w = l ++ [s] ->
  (forall w1, slides w1 = l ++ [s] ->
     prepare w1 = (Returned tt, World (trace w1) (l ++ [f s]) (files w1) (saved w1))) ->
  exists r w' s' evs,
    (img_path <- download_image E query temp_img ;;
     if truthy img_path then
       prepare ;;;
       add_picture E (length l) img_path left top height ;;;
       os_remove img_path
     else ret tt) w = (r, w') /\
    slides w' = l ++ [s'] /\ saved w' = saved w /\
    trace w' = trace w ++ CallGetenv "PEXELS_API_KEY" :: evs /\
    quiet_fetch evs /\
    ((r = Returned tt /\ s' = s /\ files w' = files w /\
      forall image, ~ fetched E query temp_img (trace w) image) \/
     (exists image tr,
        fetched E query temp_img (trace w) image /\
        image_parse E tr image = Returned tt /\
        r = Returned tt /\
        s' = with_picture (f s) (Picture image left top height) /\
        files w' = delete temp_img (files w) /\
        trace w' = tr ++ [CallRemove temp_img]) \/
     (exists image tr e,
        fetched E query temp_img (trace w) image /\
        image_parse E tr image = Raised e /\
        r = Raised e /\ s' = f s /\
        files w' = <[temp_img := image]> (files w) /\
        trace w' = tr)).
Proof.
  intros Hs Hprep.
  destruct (download_image_fetch E query temp_img w)
    as (v & w1 & evd & Hd & Hs1 & Hv1 & Ht1 & Hq1 & Hcase).
  unfold bind at 1. rewrite Hd.
  destruct Hcase as [(-> & Hf & Hno) | (image & -> & Hfetch & Hf)].
  - exists (Returned tt), w1, s, evd. simpl. unfold ret.
    split; [reflexivity|]. rewrite Hs1, Hs. do 4 (split; [auto; fail|]).
    left. auto.
  - change (truthy (VStr temp_img)) with true. cbv iota.
    unfold bind at 1. rewrite (Hprep w1) by now rewrite Hs1.
    set (w2 := World (trace w1) (l ++ [f s]) (files w1) (saved w1)).
    assert (Hf2 : files w2 !! temp_img = Some image)
      by (simpl; rewrite Hf; apply lookup_insert_eq).
    destruct (image_parse E (trace w2) image) as [e|[]] eqn:Hp.
    + rewrite (picture_refused E _ image e _ _ _ w2 Hf2 Hp).
      exists (Raised e), w2, (f s), evd. simpl.
      do 5 (split; [auto; fail|]). right. right. exists image, (trace w1), e.
      auto 7.
    + rewrite (place_picture E l (f s) image _ _ _ w2 eq_refl Hf2 Hp).
      eexists (Returned tt), _, _, (evd ++ [CallRemove temp_img]). simpl.
      split; [reflexivity|]. split; [reflexivity|]. split; [assumption|].
      split; [rewrite Ht1, <- app_assoc; reflexivity|].
      split; [apply quiet_fetch_app; [assumption|];
              repeat split; repeat constructor|].
      right. left. exists image, (trace w1).
      do 4 (split; [auto; fail|]).
      split; [rewrite Hf; apply delete_insert_eq | reflexivity].
Qed.

(** With a picture asked for, a content slide is its text, with or
    without a picture: the query is asked for first, then the photo is
    looked up. *)
Lemma content_slide_cases (E : Env) (title content : string) (w : world) :
  let base := content_slide title content in
  let p := ImageQueryPrompt (VStr content) in
  let left := Inches 425 in
  let top := Inches 175 in
  let height := Inches 400 in
  exists q evq r w' s evs,
    generate_image_description E (VStr content) (pushed w base)
    = (Returned q, logged (pushed w base) (CallVision p :: evq)) /\
    quiet_fetch evq /\
    create_content_slide E (VStr title) (VStr content) true w = (r, w') /\
    slides w' = slides w ++ [s] /\ saved w' = saved w /\
    trace w' = trace w ++ CallVision p :: evq ++ CallGetenv "PEXELS_API_KEY" :: evs /\
    quiet_fetch evs /\
    ((r = Returned tt /\ s = base /\ files w' = files w /\
      forall image,
        ~ fetched E q temp_img (trace w ++ CallVision p :: evq) image) \/
     (exists image tr,
        fetched E q temp_img (trace w ++ CallVision p :: evq) image /\
        image_parse E tr image = Returned tt /\
        r = Returned tt /\
        s = with_picture (narrowed base (Inches 550))
              (Picture image left top height) /\
        files w' = delete temp_img (files w) /\
        trace w' = tr ++ [CallRemove temp_img]) \/
     (exists image tr e,
        fetched E q temp_img (trace w ++ CallVision p :: evq) image /\
        image_parse E tr image = Raised e /\
        r = Raised e /\ s = narrowed base (Inches 550) /\
        files w' = <[temp_img := image]> (files w) /\
        trace w' = tr)).
Proof.
  intros base p left top height.
  rewrite create_content_slide_unfold. fold base.
  destruct (image_description_frame E (VStr content) (pushed w base))
    as (q & evq & Hq & Hevq). fold p in Hq.
  exists q, evq. unfold bind at 1. rewrite Hq.
  set (w1 := logged (pushed w base) (CallVision p :: evq)).
  destruct (fetch_and_place E q (slides w) base
              (fun x => narrowed x (Inches 550))
              (set_body_width (length (slides w)) (Inches 550))
              left top height w1 eq_refl)
    as (r & w' & s & evs & Hrun & Hs & Hv & Ht & Hevs & Hcase).
  { intros w2 H2. unfold set_body_width.
    now rewrite (update_last_slide _ _ _ _ H2). }
  exists r, w', s, evs. split; [reflexivity|]. split; [assumption|].
  split; [exact Hrun|]. split; [assumption|]. split; [assumption|].
  split; [rewrite Ht; simpl; now rewrite <- app_assoc|].
  split; [assumption|]. exact Hcase.
Qed.

(** An image slide up to the point where the picture is looked for. *)
Lemma image_slide_text (title content : string) (w : world) (k : nat -> M unit) :
  (slide <- add_slide 5 ;;
   set_title slide (VStr title) (Style None false false None true) ;;;
   (if truthy (VStr content) then
      add_textbox slide (Inches 50) (Inches 600) (Inches 900) (Inches 100)
        (VStr content) (Style (Some 16) false false None true)
    else ret tt) ;;;
   k slide) w = k (length (slides w)) (pushed w (image_slide title content)).
Proof.
  unfold add_slide, set_title, add_textbox, image_slide. deck.
  destruct (String.eqb content EmptyString); simpl; deck; reflexivity.
Qed.

(** An image slide is its title and its caption, with or without a
    picture. *)
Lemma image_slide_cases (E : Env) (title content query : string) (w : world) :
  let base := image_slide title content in
  let left := Inches 100 in
  let top := Inches 150 in
  let height := Inches 450 in
  exists r w' s evs,
    create_image_slide E (VStr title) (VStr content) query w = (r, w') /\
    slides w' = slides w ++ [s] /\ saved w' = saved w /\
    trace w' = trace w ++ CallGetenv "PEXELS_API_KEY" :: evs /\
    quiet_fetch evs /\
    ((r = Returned tt /\ s = base /\ files w' = files w /\
      forall image, ~ fetched E query temp_img (trace w) image) \/
     (exists image tr,
        fetched E query temp_img (trace w) image /\
        image_parse E tr image = Returned tt /\
        r = Returned tt /\
        s = with_picture base (Picture image left top height) /\
        files w' = delete temp_img (files w) /\
        trace w' = tr ++ [CallRemove temp_img]) \/
     (exists image tr e,
        fetched E query temp_img (trace w) image /\
        image_parse E tr image = Raised e /\
        r = Raised e /\ s = base /\
        files w' = <[temp_img := image]> (files w) /\
        trace w' = tr)).
Proof.
  intros base left top height. unfold create_image_slide.
  rewrite (image_slide_text title content w (fun slide =>
    img_path <- download_image E query temp_img ;;
    if truthy img_path then
      add_picture E slide img_path (Inches 100) (Inches 150) (Inches 450) ;;;
      os_remove img_path
    else ret tt)).
  fold base.
  destruct (fetch_and_place E query (slides w) base (fun x => x) (ret tt)
              left top height (pushed w base) eq_refl)
    as (r & w' & s & evs & Hrun & Hcase).
  { intros w2 H2. unfold ret. rewrite <- H2. now destruct w2. }
  exists r, w', s, evs. split; [exact Hrun | exact Hcase].
Qed.

(** ** The loop of generate_presentation *)

Lemma get_text_or_absent (d : gmap string value) (key dflt : string) :
  text_or_absent d key ->
  default (VStr dflt) (d !! key) = VStr (field dflt (VDict d) key).
Proof. unfold field. intros [-> | [s ->]]; reflexivity. Qed.

(** The dispatch: which renderer the loop calls, with which arguments. *)
Lemma loop_body_dispatch (E : Env) (specs : list value) (i : Z)
    (d : gmap string value) (w : world) :
  text_or_absent d "slide_type" ->
  let slide_type := Py.lower (field "content" (VDict d) "slide_type") in
  let title := default (VStr EmptyString) (d !! "title") in
  let content := default (VStr EmptyString) (d !! "content") in
  loop_body E (VList specs) i (VDict d) w =
  (print (MsgCreatingSlide (i + 1) (Z.of_nat (length specs)) title slide_type) ;;;
   if String.eqb slide_type "title" then
     create_title_slide title content
   else if String.eqb slide_type "image" then
     img_query <- generate_image_description E content ;;
     create_image_slide E title content img_query
   else if String.eqb slide_type "conclusion" then
     create_content_slide E title content false
   else
     create_content_slide E title content true) w.
Proof.
  intros Ht. unfold loop_body. simpl dict_get.
  rewrite (get_text_or_absent d "slide_type" "content" Ht). reflexivity.
Qed.

Lemma one_slide_logged (base : slide) (pre evs : list event) (w w' : world) :
  one_slide base evs (logged w pre) w' -> one_slide base (pre ++ evs) w w'.
Proof.
  intros (s & Hs & Hb & Hv & Ht). exists s. simpl in *.
  split; [assumption|]. split; [assumption|]. split; [assumption|].
  rewrite Ht. now rewrite <- app_assoc.
Qed.

Lemma one_slide_pushed (base : slide) (w : world) :
  one_slide base [] w (pushed w base).
Proof.
  exists base. simpl. rewrite app_nil_r. repeat split.
Qed.

(** One round of the loop on a SlideSpec, fields left out or not: the
    slide of that SlideSpec is added; a slide that wants a picture asks
    for one image query and looks the key up once, the others do neither;
    and the only exception that can come out is one the presentation
    library raises on a fetched photo. *)
Lemma loop_body_cases (E : Env) (specs : list value) (i : Z) (v : value)
    (w : world) :
  is_loose_spec v ->
  exists r w' evs,
    loop_body E (VList specs) i v w = (r, w') /\
    one_slide (base_slide v)
      (Printed (MsgCreatingSlide (i + 1) (Z.of_nat (length specs))
                  (VStr (field EmptyString v "title"))
                  (Py.lower (field "content" v "slide_type"))) :: evs) w w' /\
    Forall image_event evs /\
    image_queries evs
    = (if wants_image v then [VStr (field EmptyString v "content")] else []) /\
    key_lookups evs = (if wants_image v then 1 else 0)%nat /\
    (r = Returned tt \/ exists e, r = Raised e /\ placement_fails E e).
Proof.
  intros (d & -> & Ht & Hc & Hty).
  rewrite (loop_body_dispatch E specs i d w Hty). cbv zeta.
  rewrite (get_text_or_absent d "title" EmptyString Ht).
  rewrite (get_text_or_absent d "content" EmptyString Hc).
  unfold base_slide, wants_image.
  set (ty := Py.lower (field "content" (VDict d) "slide_type")).
  set (t := field EmptyString (VDict d) "title").
  set (c := field EmptyString (VDict d) "content").
  set (ev := Printed (MsgCreatingSlide (i + 1) (Z.of_nat (length specs)) (VStr t) ty)).
  unfold bind at 1, print, log. fold ev.
  destruct (String.eqb ty "title") eqn:H1.
  { rewrite create_title_slide_run. eexists _, _, []. split; [reflexivity|].
    split; [apply (one_slide_logged _ [ev] []), one_slide_pushed|].
    split; [constructor|]. auto. }
  destruct (String.eqb ty "image") eqn:H2.
  { assert (H3 : String.eqb ty "conclusion" = false).
    { apply String.eqb_eq in H2. now rewrite H2. }
    rewrite H3. simpl negb. simpl andb. cbv iota.
    destruct (image_description_frame E (VStr c) (logged w [ev]))
      as (q & evq & Hq & Hevq & Hqq & Hqk).
    unfold bind at 1. rewrite Hq, logged_logged.
    set (p := ImageQueryPrompt (VStr c)).
    change ([ev] ++ CallVision p :: evq) with (ev :: CallVision p :: evq).
    destruct (image_slide_cases E t c q (logged w (ev :: CallVision p :: evq)))
      as (r & w' & s & evs & -> & Hs & Hv & Htr & (Hevs & Hsq & Hsk) & Hcase).
    exists r, w', (CallVision p :: evq ++ CallGetenv "PEXELS_API_KEY" :: evs).
    split; [reflexivity|]. simpl in Hs, Hv, Htr. split; [|split; [|split; [|split]]].
    - exists s. split; [assumption|]. split; [|split; [assumption|]].
      + destruct Hcase as [(_ & -> & _) | [(im & tr & _ & _ & _ & -> & _)
                                          | (im & tr & e & _ & _ & _ & -> & _)]];
          repeat split.
      + rewrite Htr, <- app_assoc. reflexivity.
    - constructor; [exact I|]. apply Forall_app. split; [assumption|].
      constructor; [exact I | assumption].
    - simpl. rewrite image_queries_app, Hqq. simpl. now rewrite Hsq.
    - simpl. rewrite key_lookups_app, Hqk. simpl. now rewrite Hsk.
    - destruct Hcase as [(-> & _) | [(im & tr & _ & _ & -> & _)
                                    | (im & tr & e & Hf & Hp & -> & _)]]; auto.
      right. exists e. split; [reflexivity|]. eexists q, _, im, tr. eauto. }
  destruct (String.eqb ty "conclusion") eqn:H3.
  { rewrite content_slide_no_image. eexists _, _, []. split; [reflexivity|].
    split; [apply (one_slide_logged _ [ev] []), one_slide_pushed|].
    split; [constructor|]. auto. }
  simpl negb. simpl andb. cbv iota.
  set (p := ImageQueryPrompt (VStr c)).
  destruct (content_slide_cases E t c (logged w [ev]))
    as (q & evq & r & w' & s & evs & _ & (Hevq & Hqq & Hqk) & -> & Hs & Hv & Htr
        & (Hevs & Hsq & Hsk) & Hcase).
  fold p in Htr, Hcase.
  exists r, w', (CallVision p :: evq ++ CallGetenv "PEXELS_API_KEY" :: evs).
  split; [reflexivity|]. simpl in Hs, Hv, Htr. split; [|split; [|split; [|split]]].
  - exists s. split; [assumption|]. split; [|split; [assumption|]].
    + destruct Hcase as [(_ & -> & _) | [(im & tr & _ & _ & _ & -> & _)
                                        | (im & tr & e & _ & _ & _ & -> & _)]];
        repeat split.
    + rewrite Htr, <- app_assoc. reflexivity.
  - constructor; [exact I|]. apply Forall_app. split; [assumption|].
    constructor; [exact I | assumption].
  - simpl. rewrite image_queries_app, Hqq. simpl. now rewrite Hsq.
  - simpl. rewrite key_lookups_app, Hqk. simpl. now rewrite Hsk.
  - destruct Hcase as [(-> & _) | [(im & tr & _ & _ & -> & _)
                                  | (im & tr & e & Hf & Hp & -> & _)]]; auto.
    right. exists e. split; [reflexivity|]. eexists q, _, im, tr. eauto.
Qed.

(** Where every fetched photo is a picture, no exception comes out. *)
Lemma photos_place_sound (E : Env) (e : exn) :
  photos_place E -> ~ placement_fails E e.
Proof.
  intros Hp (query & tr & image & tr' & Hf & Hr).
  rewrite (Hp query tr image tr' Hf) in Hr. discriminate.
Qed.

(** Where the search request never answers, no photo is fetched at
    all. *)
Lemma no_search_no_photo (E : Env) :
  (forall tr key query, exists e,
     http_get_json E tr pexels_url key query = Raised e) ->
  photos_place E.
Proof.
  intros Hno query tr image tr' (data & ? & ? & ? & ? & _ & Hd & _).
  destruct (Hno (tr ++ [CallGetenv "PEXELS_API_KEY"]) (pexels_key E tr) query)
    as [e He].
  rewrite He in Hd. discriminate.
Qed.

Lemma offline_photos_place (response : outcome string)
    (loads : string -> option value) :
  photos_place (offline response loads).
Proof. apply no_search_no_photo. intros. eexists. reflexivity. Qed.

Lemma offline_writable (response : outcome string)
    (loads : string -> option value) (output_file : string) :
  writable (offline response loads) output_file.
Proof. intros tr. reflexivity. Qed.

(** One round of the loop where every fetched photo is a picture: it
    raises nothing. *)
Lemma loop_body_ok (E : Env) (specs : list value) (i : Z) (v : value) (w : world) :
  photos_place E -> is_loose_spec v ->
  exists w' evs,
    loop_body E (VList specs) i v w = (Returned tt, w') /\
    one_slide (base_slide v)
      (Printed (MsgCreatingSlide (i + 1) (Z.of_nat (length specs))
                  (VStr (field EmptyString v "title"))
                  (Py.lower (field "content" v "slide_type"))) :: evs) w w' /\
    Forall image_event evs /\
    image_queries evs
    = (if wants_image v then [VStr (field EmptyString v "content")] else []) /\
    key_lookups evs = (if wants_image v then 1 else 0)%nat.
Proof.
  intros Hp Hv.
  destruct (loop_body_cases E specs i v w Hv)
    as (r & w' & evs & Hrun & Hone & Hev & Hq & Hk & [-> | (e & _ & He)]).
  - exists w', evs. auto.
  - now apply photos_place_sound in He.
Qed.

(** The whole loop: one slide for each element, in the order of the
    outline, and the image requests of the slides that want a picture. *)
Lemma loop_ok (E : Env) (specs rest : list value) (start : Z) (w : world) :
  photos_place E ->
  Forall is_loose_spec rest ->
  exists w' deck evs,
    for_each (enumerate start rest)
      (fun '(i, slide_info) => loop_body E (VList specs) i slide_info) w
    = (Returned tt, w') /\
    slides w' = slides w ++ deck /\
    Forall2 same_text (base_slide <$> rest) deck /\
    saved w' = saved w /\ trace w' = trace w ++ evs /\
    image_queries evs
    = (fun v => VStr (field EmptyString v "content"))
      <$> List.filter wants_image rest /\
    key_lookups evs = length (List.filter wants_image rest).
Proof.
  intros Hp Hall. revert start w.
  induction Hall as [|v rest Hv Hrest IH]; intros start w; simpl.
  - exists w, [], []. unfold ret. rewrite !app_nil_r. repeat split. constructor.
  - destruct (loop_body_ok E specs start v w Hp Hv)
      as (w1 & evs1 & Hrun & (s & Hs & Hb & Hsv & Ht) & _ & Hq1 & Hk1).
    destruct (IH (start + 1) w1)
      as (w2 & deck & evs2 & Hrun2 & Hs2 & Hd & Hsv2 & Ht2 & Hq2 & Hk2).
    match type of Ht with _ = _ ++ ?l => exists w2, (s :: deck), (l ++ evs2) end.
    unfold bind. rewrite Hrun, Hrun2. split; [reflexivity|].
    rewrite Hs2, Hs, Hsv2, Hsv, Ht2, Ht, <- !app_assoc.
    rewrite image_queries_app, key_lookups_app. simpl.
    rewrite Hq1, Hk1, Hq2, Hk2.
    destruct (wants_image v); repeat split; now constructor.
Qed.

(** The whole loop, whatever the photos are: nothing is saved, and the
    only exception that can come out is one the presentation library
    raises on a fetched photo. *)
Lemma loop_aborts_on_photo_only (E : Env) (specs rest : list value)
    (start : Z) (w : world) :
  Forall is_loose_spec rest ->
  exists r w',
    for_each (enumerate start rest)
      (fun '(i, slide_info) => loop_body E (VList specs) i slide_info) w
    = (r, w') /\
    saved w' = saved w /\
    (r = Returned tt \/ exists e, r = Raised e /\ placement_fails E e).
Proof.
  intros Hall. revert start w.
  induction Hall as [|v rest Hv Hrest IH]; intros start w; simpl.
  - exists (Returned tt), w. unfold ret. auto.
  - destruct (loop_body_cases E specs start v w Hv)
      as (r & w1 & evs1 & Hrun & (s & _ & _ & Hsv & _) & _ & _ & _ & Hr).
    unfold bind. rewrite Hrun. destruct Hr as [-> | (e & -> & He)].
    + destruct (IH (start + 1) w1) as (r2 & w2 & Hrun2 & Hsv2 & Hr2).
      exists r2, w2. split; [exact Hrun2|]. split; [congruence | exact Hr2].
    + exists (Raised e), w1. eauto 6.
Qed.

(** ** generate_presentation *)

Section Presentation.

Context (E : Env) (topic : string) (num_slides : Z) (output_file : string)
        (w : world).

Let started : world := logged w [Printed MsgGeneratingOutline].

(** The build, once the outline step has returned a non-empty list. *)
Lemma presentation_after_outline (first : value) (rest : list value) (w1 : world) :
  generate_content_outline E topic num_slides started
  = (Returned (VList (first :: rest)), w1) ->
  generate_presentation E topic num_slides output_file w =
  (print MsgCreatingTitle ;;;
   title <- lift (getitem first "title") ;;
   subtitle <- lift (dict_get first "content" (VStr EmptyString)) ;;
   create_title_slide title subtitle ;;;
   for_each (enumerate 1 rest)
     (fun '(i, slide_info) => loop_body E (VList (first :: rest)) i slide_info) ;;;
   save E output_file ;;;
   print (MsgSaved output_file) ;;;
   ret (VStr output_file)) w1.
Proof.
  intros Hout. unfold generate_presentation.
  unfold bind at 1, print at 1, log. fold started.
  unfold bind at 1. rewrite Hout.
  unfold bind at 1. simpl truthy. simpl negb. cbv iota.
  unfold bind at 1, lift at 1, py_len, ret at 1.
  destruct (Z.ltb_spec (Z.of_nat (length (first :: rest))) 1) as [Hlt|_].
  { simpl in Hlt. lia. }
  reflexivity.
Qed.

(** The build stops before any slide when the outline step has returned
    [None] or an empty list. *)
Lemma presentation_rejected (outline : value) (w1 : world) :
  generate_content_outline E topic num_slides started = (Returned outline, w1) ->
  outline = VNone \/ outline = VList [] ->
  generate_presentation E topic num_slides output_file w =
  (Returned VNone, logged w1 [Printed MsgOutlineFailed]).
Proof.
  intros Hout Hcase. unfold generate_presentation.
  unfold bind at 1, print at 1, log. fold started.
  unfold bind at 1. rewrite Hout.
  destruct Hcase as [-> | ->]; reflexivity.
Qed.

(** On an outline whose first element has a title and whose elements are
    SlideSpecs, fields left out or not, the build returns the output
    file, unless the presentation library raises: on a fetched photo, or
    on the file it has to write. *)
Lemma build_outcomes (d0 : gmap string value) (title0 : string)
    (rest : list value) (w1 : world) :
  generate_content_outline E topic num_slides started
  = (Returned (VList (VDict d0 :: rest)), w1) ->
  d0 !! "title" = Some (VStr title0) ->
  text_or_absent d0 "content" ->
  Forall is_loose_spec rest ->
  exists r w2,
    generate_presentation E topic num_slides output_file w = (r, w2) /\
    (r = Returned (VStr output_file) \/
     exists e, r = Raised e /\ saved w2 = saved w /\
       (placement_fails E e \/
        exists tr, file_save E tr output_file = Raised e)).
Proof.
  intros Hout Ht Hc Hrest.
  rewrite (presentation_after_outline _ _ _ Hout).
  destruct (outline_keeps_deck E topic num_slides started _ _ Hout)
    as (_ & _ & Hv1 & _).
  unfold bind at 1, print at 1, log.
  unfold bind at 1, lift at 1, getitem. rewrite Ht.
  unfold bind at 1, lift at 1, dict_get.
  rewrite (get_text_or_absent d0 "content" EmptyString Hc).
  unfold bind at 1. rewrite create_title_slide_run.
  set (w1' := pushed (logged w1 [Printed MsgCreatingTitle]) _).
  destruct (loop_aborts_on_photo_only E (VDict d0 :: rest) rest 1 w1' Hrest)
    as (r & w2 & Hloop & Hv2 & Hr).
  unfold bind at 1. rewrite Hloop. simpl in Hv2, Hv1.
  destruct Hr as [-> | (e & -> & He)].
  - unfold bind, save, print, log, ret.
    destruct (file_save E (trace w2) output_file) as [e|[]] eqn:Hsave.
    + eexists _, _. split; [reflexivity|]. right. exists e. simpl.
      split; [reflexivity|]. split; [congruence | eauto].
    + eexists _, _. split; [reflexivity|]. now left.
  - eexists _, _. split; [reflexivity|]. right. exists e.
    split; [reflexivity|]. split; [congruence | now left].
Qed.

(** The build runs to the end on an outline whose first element has a
    title and whose elements are SlideSpecs, fields left out or not,
    where every fetched photo is a picture and the presentation file can
    be written. *)
Lemma build_completes (d0 : gmap string value) (title0 : string)
    (rest : list value) (w1 : world) :
  photos_place E -> writable E output_file ->
  generate_content_outline E topic num_slides started
  = (Returned (VList (VDict d0 :: rest)), w1) ->
  d0 !! "title" = Some (VStr title0) ->
  text_or_absent d0 "content" ->
  Forall is_loose_spec rest ->
  exists w2 deck evs,
    generate_presentation E topic num_slides output_file w
    = (Returned (VStr output_file), w2) /\
    slides w2 =
    slides w ++ title_slide title0 (field EmptyString (VDict d0) "content") :: deck /\
    Forall2 same_text (base_slide <$> rest) deck /\
    saved w2 = saved w ++ [(output_file, slides w2)] /\
    trace w2 = trace w1 ++ Printed MsgCreatingTitle :: evs
               ++ [CallSave output_file; Printed (MsgSaved output_file)] /\
    image_queries evs
    = (fun v => VStr (field EmptyString v "content"))
      <$> List.filter wants_image rest /\
    key_lookups evs = length (List.filter wants_image rest).
Proof.
  intros Hplace Hsave Hout Ht Hc Hrest.
  rewrite (presentation_after_outline _ _ _ Hout).
  destruct (outline_keeps_deck E topic num_slides started _ _ Hout)
    as (Hs1 & _ & Hv1 & _).
  unfold bind at 1, print at 1, log.
  unfold bind at 1, lift at 1, getitem. rewrite Ht.
  unfold bind at 1, lift at 1, dict_get.
  rewrite (get_text_or_absent d0 "content" EmptyString Hc).
  unfold bind at 1. rewrite create_title_slide_run.
  set (s0 := title_slide title0 (field EmptyString (VDict d0) "content")).
  set (w1' := pushed (logged w1 [Printed MsgCreatingTitle]) s0).
  destruct (loop_ok E (VDict d0 :: rest) rest 1 w1' Hplace Hrest)
    as (w2 & deck & evs & Hloop & Hs2 & Hdeck & Hv2 & Ht2 & Hq & Hk).
  unfold bind at 1. rewrite Hloop.
  unfold bind, save, print, log, ret. rewrite (Hsave (trace w2)). simpl.
  eexists _, deck, evs. split; [reflexivity|]. simpl.
  rewrite Hs2, Hv2, Ht2. simpl. rewrite Hs1, Hv1. simpl.
  rewrite <- !app_assoc. simpl. repeat split; try assumption.
Qed.

End Presentation.




Lemma animal_outline_parsed :
  generate_content_outline animal_env "Animal Kingdom" 3
    (logged fresh [Printed MsgGeneratingOutline])
  = (Returned animal_outline,
     parsed animal_text).
Proof. vm_compute. reflexivity. Qed.

Lemma animal_outline_offline :
  generate_content_outline animal_offline_env "Animal Kingdom" 3
    (logged fresh [Printed MsgGeneratingOutline])
  = (Returned animal_outline,
     parsed animal_text).
Proof. vm_compute. reflexivity. Qed.




(** C3, as stated, fails: an outline of dicts passes the non-empty check
    and the build still raises, and saves nothing. With a [slide_type]
    that is [null], [lower] is missing; with a first element without a
    title, so is the key. *)
Lemma build_aborts_on_dicts :
  (exists w', generate_presentation untyped_env "Animal Kingdom" 3
                "AI_Presentation.pptx" fresh = (Raised AttributeError, w') /\
              saved w' = []) /\
  (exists w', generate_presentation untitled_env "Animal Kingdom" 3
                "AI_Presentation.pptx" fresh
              = (Raised (KeyError (VStr "title")), w') /\
              saved w' = []).
Proof. split; eexists; split; vm_compute; reflexivity. Qed.

(** C3, amended. On every outline that passes the non-empty check, whose
    first element has a string for title and whose elements are dicts
    with strings for the [title], [content] and [slide_type] they have,
    the only exceptions that come out of the build are those of the
    presentation library, on a fetched photo that is no picture or on
    the file it has to write; then nothing is saved. Where every fetched
    photo is a picture and the file can be written, the build runs to
    the end, whatever the image services do: it raises nothing, every
    element has its slide with its text, a failed image description or
    download costs the picture only, and the presentation is saved. *)
Theorem build_never_aborts (E : Env) (topic : string) (num_slides : Z)
    (output_file : string) (w w1 : world) (d0 : gmap string value)
    (title0 : string) (rest : list value) :
  generate_content_outline E topic num_slides
    (logged w [Printed MsgGeneratingOutline])
  = (Returned (VList (VDict d0 :: rest)), w1) ->
  d0 !! "title" = Some (VStr title0) ->
  text_or_absent d0 "content" ->
  Forall is_loose_spec rest ->
  (exists r w2,
     generate_presentation E topic num_slides output_file w = (r, w2) /\
     (r = Returned (VStr output_file) \/
      exists e, r = Raised e /\ saved w2 = saved w /\
        (placement_fails E e \/
         exists tr, file_save E tr output_file = Raised e))) /\
  (photos_place E -> writable E output_file ->
   exists w2 deck,
     generate_presentation E topic num_slides output_file w
     = (Returned (VStr output_file), w2) /\
     slides w2 = slides w ++ deck /\
     Forall2 same_text
       (title_slide title0 (field EmptyString (VDict d0) "content")
        :: (base_slide <$> rest)) deck /\
     saved w2 = saved w ++ [(output_file, slides w2)]).
Proof.
  intros Hout Ht Hc Hrest. split.
  - exact (build_outcomes E topic num_slides output_file w d0 title0 rest w1
             Hout Ht Hc Hrest).
  - intros Hplace Hsave.
    destruct (build_completes E topic num_slides output_file w d0 title0 rest w1
                Hplace Hsave Hout Ht Hc Hrest)
      as (w2 & deck & evs & Hrun & Hs & Hdeck & Hsaved & _).
    exists w2, (title_slide title0 (field EmptyString (VDict d0) "content") :: deck).
    repeat split; try assumption.
    constructor; [apply same_text_refl | exact Hdeck].
Qed.

Lemma sparse_outline_parsed :
  generate_content_outline sparse_env "Animal Kingdom" 3
    (logged fresh [Printed MsgGeneratingOutline])
  = (Returned (VList [VDict {[ "title" := VStr "T" ]}; VDict ∅]),
     parsed sparse_text).
Proof. vm_compute. reflexivity. Qed.

Lemma empty_dict_loose : is_loose_spec (VDict ∅).
Proof. exists ∅. unfold text_or_absent. repeat split; now left. Qed.

Lemma build_never_aborts_witness :
  exists w2 deck,
    generate_presentation sparse_env "Animal Kingdom" 3 "AI_Presentation.pptx" fresh
    = (Returned (VStr "AI_Presentation.pptx"), w2) /\
    slides w2 = deck /\
    saved w2 = [("AI_Presentation.pptx", deck)].
Proof.
  destruct (build_never_aborts sparse_env "Animal Kingdom" 3
              "AI_Presentation.pptx" fresh _ {[ "title" := VStr "T" ]} "T"
              [VDict ∅] sparse_outline_parsed eq_refl (or_introl eq_refl)
              ltac:(repeat constructor; exact empty_dict_loose))
    as [_ Hdone].
  destruct (Hdone (offline_photos_place _ _) (offline_writable _ _ _))
    as (w2 & deck & Hrun & Hs & _ & Hsaved).
  exists w2, deck. split; [exact Hrun|]. split; [exact Hs|].
  rewrite Hsaved, Hs. reflexivity.
Defined.

(** ** The dispatch on slide_type *)

Lemma lower_char_idem (c : ascii) :
  Py.lower_char (Py.lower_char c) = Py.lower_char c.
Proof. destruct c as [[] [] [] [] [] [] [] []]; reflexivity. Qed.

Lemma lower_idem (s : string) : Py.lower (Py.lower s) = Py.lower s.
Proof.
  induction s as [|c s IH]; simpl; [reflexivity|].
  now rewrite lower_char_idem, IH.
Qed.

Lemma field_slide_type (d : gmap string value) (s : string) :
  field "content" (VDict (<["slide_type" := VStr s]> d)) "slide_type" = s.
Proof. unfold field. now rewrite lookup_insert_eq. Qed.

Lemma text_or_absent_insert (d : gmap string value) (key s : string) :
  text_or_absent (<[key := VStr s]> d) key.
Proof. right. exists s. apply lookup_insert_eq. Qed.

(** C4, as stated, fails: "Title" is none of "title", "image" and
    "conclusion", and a slide of that type goes to the title renderer,
    not to the content renderer. *)
Lemma capital_title_not_content :
  "Title" <> "title" /\ "Title" <> "image" /\ "Title" <> "conclusion" /\
  layout <$> slides (snd (loop_body pair_env (VList []) 1
                            (slide_spec "T" "C" "Title") fresh)) = [0%nat] /\
  layout <$> slides (snd (create_content_slide pair_env (VStr "T") (VStr "C") true
                            fresh)) = [1%nat].
Proof. repeat split; try discriminate; vm_compute; reflexivity. Qed.

(** C4, amended. A slide after the first whose [slide_type], once in
    lower case, is none of "title", "image" and "conclusion" - "summary",
    say - goes to [create_content_slide] with [include_image=True], with
    the title and the content the type "content" would pass. *)
Theorem unknown_type_as_content (E : Env) (specs : list value) (i : Z)
    (d : gmap string value) (s : string) (w : world) :
  d !! "slide_type" = Some (VStr s) ->
  Py.lower s <> "title" -> Py.lower s <> "image" -> Py.lower s <> "conclusion" ->
  let title := default (VStr EmptyString) (d !! "title") in
  let content := default (VStr EmptyString) (d !! "content") in
  loop_body E (VList specs) i (VDict d) w =
  (print (MsgCreatingSlide (i + 1) (Z.of_nat (length specs)) title (Py.lower s)) ;;;
   create_content_slide E title content true) w /\
  loop_body E (VList specs) i (VDict (<["slide_type" := VStr "content"]> d)) w =
  (print (MsgCreatingSlide (i + 1) (Z.of_nat (length specs)) title "content") ;;;
   create_content_slide E title content true) w.
Proof.
  intros Hs H1 H2 H3 title content. split.
  - rewrite loop_body_dispatch by (right; eauto). cbv zeta.
    unfold field. rewrite Hs.
    apply String.eqb_neq in H1, H2, H3. now rewrite H1, H2, H3.
  - rewrite loop_body_dispatch by apply text_or_absent_insert. cbv zeta.
    rewrite field_slide_type, !lookup_insert_ne by discriminate.
    reflexivity.
Qed.

Lemma unknown_type_as_content_witness :
  loop_body pair_env (VList []) 1 (slide_spec "T" "C" "summary") fresh =
  (print (MsgCreatingSlide 2 0 (VStr "T") "summary") ;;;
   create_content_slide pair_env (VStr "T") (VStr "C") true) fresh.
Proof.
  assert (H1 : Py.lower "summary" <> "title") by (vm_compute; discriminate).
  assert (H2 : Py.lower "summary" <> "image") by (vm_compute; discriminate).
  assert (H3 : Py.lower "summary" <> "conclusion") by (vm_compute; discriminate).
  exact (proj1 (unknown_type_as_content pair_env [] 1
                  {[ "title" := VStr "T"; "content" := VStr "C";
                     "slide_type" := VStr "summary" ]} "summary" fresh
                  eq_refl H1 H2 H3)).
Defined.

(** C9. The dispatch ignores case: the [slide_type] of a slide after the
    first is put in lower case before it is compared. A type that is
    "title" once in lower case sends the slide to the title renderer, one
    that is "image" to the image query and the image renderer, one that
    is "conclusion" to the content renderer without picture, each with
    the title and the content of the slide; so a slide behaves as the
    slide with the type in lower case does. "Title", "IMAGE" and
    "Conclusion" are "title", "image" and "conclusion". *)
Theorem dispatch_ignores_case (E : Env) (specs : list value) (i : Z)
    (d : gmap string value) (s : string) (w : world) :
  let title := default (VStr EmptyString) (d !! "title") in
  let content := default (VStr EmptyString) (d !! "content") in
  let slide_info := VDict (<["slide_type" := VStr s]> d) in
  let announce :=
    print (MsgCreatingSlide (i + 1) (Z.of_nat (length specs)) title (Py.lower s)) in
  (Py.lower s = "title" ->
   loop_body E (VList specs) i slide_info w =
   (announce ;;; create_title_slide title content) w) /\
  (Py.lower s = "image" ->
   loop_body E (VList specs) i slide_info w =
   (announce ;;;
    img_query <- generate_image_description E content ;;
    create_image_slide E title content img_query) w) /\
  (Py.lower s = "conclusion" ->
   loop_body E (VList specs) i slide_info w =
   (announce ;;; create_content_slide E title content false) w) /\
  loop_body E (VList specs) i slide_info w =
  loop_body E (VList specs) i (VDict (<["slide_type" := VStr (Py.lower s)]> d)) w
  /\ Py.lower "Title" = "title" /\ Py.lower "IMAGE" = "image"
  /\ Py.lower "Conclusion" = "conclusion".
Proof.
  intros title content slide_info announce.
  assert (Hrun : loop_body E (VList specs) i slide_info w =
    (announce ;;;
     if String.eqb (Py.lower s) "title" then create_title_slide title content
     else if String.eqb (Py.lower s) "image" then
       img_query <- generate_image_description E content ;;
       create_image_slide E title content img_query
     else if String.eqb (Py.lower s) "conclusion" then
       create_content_slide E title content false
     else create_content_slide E title content true) w).
  { unfold slide_info. rewrite loop_body_dispatch by apply text_or_absent_insert.
    cbv zeta. rewrite field_slide_type, !lookup_insert_ne by discriminate.
    reflexivity. }
  split; [|split; [|split; [|split; [|repeat split]]]].
  - intros Hs. rewrite Hrun, Hs. reflexivity.
  - intros Hs. rewrite Hrun, Hs. reflexivity.
  - intros Hs. rewrite Hrun, Hs. reflexivity.
  - unfold slide_info.
    rewrite !loop_body_dispatch by apply text_or_absent_insert. cbv zeta.
    rewrite !field_slide_type, lower_idem, !lookup_insert_ne by discriminate.
    reflexivity.
Qed.

Lemma dispatch_ignores_case_witness :
  let d : gmap string value := {[ "title" := VStr "T"; "content" := VStr "C" ]} in
  loop_body pair_env (VList []) 1 (VDict (<["slide_type" := VStr "Title"]> d)) fresh
  = (print (MsgCreatingSlide 2 0 (VStr "T") "title") ;;;
     create_title_slide (VStr "T") (VStr "C")) fresh /\
  loop_body pair_env (VList []) 1 (VDict (<["slide_type" := VStr "IMAGE"]> d)) fresh
  = (print (MsgCreatingSlide 2 0 (VStr "T") "image") ;;;
     img_query <- generate_image_description pair_env (VStr "C") ;;
     create_image_slide pair_env (VStr "T") (VStr "C") img_query) fresh /\
  loop_body pair_env (VList []) 1
    (VDict (<["slide_type" := VStr "Conclusion"]> d)) fresh
  = (print (MsgCreatingSlide 2 0 (VStr "T") "conclusion") ;;;
     create_content_slide pair_env (VStr "T") (VStr "C") false) fresh.
Proof.
  intros d. split; [|split].
  - exact (proj1 (dispatch_ignores_case pair_env [] 1 d "Title" fresh) eq_refl).
  - exact (proj1 (proj2 (dispatch_ignores_case pair_env [] 1 d "IMAGE" fresh))
             eq_refl).
  - exact (proj1 (proj2 (proj2
             (dispatch_ignores_case pair_env [] 1 d "Conclusion" fresh)))
             eq_refl).
Defined.

(** The renderers the three types reach, seen on the deck: the layout of
    the title slide, of the title-only slide and of the content slide,
    the last one without a request for a picture. *)
Lemma capital_types_run :
  let d : gmap string value := {[ "title" := VStr "T"; "content" := VStr "C" ]} in
  let ran (s : string) :=
    snd (loop_body pair_env (VList []) 1
           (VDict (<["slide_type" := VStr s]> d)) fresh) in
  layout <$> slides (ran "Title") = [0%nat] /\
  layout <$> slides (ran "IMAGE") = [5%nat] /\
  layout <$> slides (ran "Conclusion") = [1%nat] /\
  trace (ran "Conclusion")
  = [Printed (MsgCreatingSlide 2 0 (VStr "T") "conclusion")].
Proof. repeat split; vm_compute; reflexivity. Qed.

(** The first element of the outline is asked for its title with a
    subscript: without the key, the build raises. *)
Lemma first_needs_title (E : Env) (topic : string) (num_slides : Z)
    (output_file : string) (w w1 : world) (d0 : gmap string value)
    (rest : list value) :
  generate_content_outline E topic num_slides
    (logged w [Printed MsgGeneratingOutline])
  = (Returned (VList (VDict d0 :: rest)), w1) ->
  d0 !! "title" = None ->
  generate_presentation E topic num_slides output_file w =
  (Raised (KeyError (VStr "title")), logged w1 [Printed MsgCreatingTitle]).
Proof.
  intros Hout Ht.
  rewrite (presentation_after_outline E topic num_slides output_file w _ _ _ Hout).
  unfold bind at 1, print at 1, log.
  unfold bind at 1, lift at 1, getitem. now rewrite Ht.
Qed.

(** C10. In a slide after the first, a field left out has a default and
    raises nothing: without [slide_type] the slide goes to the content
    renderer with a picture, as the type "content" does, and a [title] or
    a [content] left out is the empty string; the slide is added, and the
    only exception that can come out of the round is one the
    presentation library raises on a fetched photo. The first element is
    the only one that needs its [title]: without it the build raises
    [KeyError]; with it, and nothing else, the build returns the output
    file unless the presentation library raises, on a fetched photo or
    on the file it has to write, and it runs to the end where every
    fetched photo is a picture and the file can be written. *)
Theorem missing_fields_default (E : Env) (topic : string) (num_slides : Z)
    (output_file : string) (w w1 : world) (specs : list value) (i : Z)
    (d d0 : gmap string value) (rest : list value) :
  (d !! "slide_type" = None ->
   loop_body E (VList specs) i (VDict d) w =
   (print (MsgCreatingSlide (i + 1) (Z.of_nat (length specs))
             (default (VStr EmptyString) (d !! "title")) "content") ;;;
    create_content_slide E (default (VStr EmptyString) (d !! "title"))
      (default (VStr EmptyString) (d !! "content")) true) w) /\
  (is_loose_spec (VDict d) ->
   exists r w', loop_body E (VList specs) i (VDict d) w = (r, w') /\
     one_slide (base_slide (VDict d)) (drop (length (trace w)) (trace w')) w w' /\
     (r = Returned tt \/ exists e, r = Raised e /\ placement_fails E e) /\
     (photos_place E -> r = Returned tt)) /\
  (generate_content_outline E topic num_slides
     (logged w [Printed MsgGeneratingOutline])
   = (Returned (VList (VDict d0 :: rest)), w1) ->
   (d0 !! "title" = None ->
    generate_presentation E topic num_slides output_file w =
    (Raised (KeyError (VStr "title")), logged w1 [Printed MsgCreatingTitle])) /\
   (forall title0, d0 = {[ "title" := VStr title0 ]} ->
    Forall is_loose_spec rest ->
    (exists r w2,
       generate_presentation E topic num_slides output_file w = (r, w2) /\
       (r = Returned (VStr output_file) \/
        exists e, r = Raised e /\
          (placement_fails E e \/
           exists tr, file_save E tr output_file = Raised e))) /\
    (photos_place E -> writable E output_file ->
     exists w2, generate_presentation E topic num_slides output_file w
                = (Returned (VStr output_file), w2) /\
       length (slides w2) = (length (slides w) + S (length rest))%nat))).
Proof.
  split; [|split].
  - intros Hty. rewrite loop_body_dispatch by now left.
    cbv zeta. unfold field. now rewrite Hty.
  - intros Hd.
    destruct (loop_body_cases E specs i (VDict d) w Hd)
      as (r & w' & evs & Hrun & Hone & _ & _ & _ & Hr).
    exists r, w'. split; [exact Hrun|]. split; [|split; [exact Hr|]].
    + destruct Hone as (s & Hs & Hb & Hv & Ht). exists s.
      repeat split; try assumption; try apply Hb.
      rewrite Ht at 2. now rewrite drop_app_length.
    + intros Hplace. destruct Hr as [-> | (e & _ & He)]; [reflexivity|].
      now apply photos_place_sound in He.
  - intros Hout. split.
    + intros Hnone.
      exact (first_needs_title E topic num_slides output_file w w1 d0 rest
               Hout Hnone).
    + intros title0 -> Hrest. split.
      * destruct (build_outcomes E topic num_slides output_file w _ title0 rest
                    w1 Hout (lookup_singleton_eq _ _) (or_introl eq_refl) Hrest)
          as (r & w2 & Hrun & [-> | (e & -> & _ & He)]).
        -- exists (Returned (VStr output_file)), w2. auto.
        -- exists (Raised e), w2. eauto.
      * intros Hplace Hsave.
        destruct (build_completes E topic num_slides output_file w _ title0 rest
                    w1 Hplace Hsave Hout (lookup_singleton_eq _ _)
                    (or_introl eq_refl) Hrest)
          as (w2 & deck & evs & Hrun & Hs & Hdeck & _).
        exists w2. split; [exact Hrun|].
        rewrite Hs, length_app. simpl. apply Forall2_length in Hdeck.
        rewrite length_fmap in Hdeck. now rewrite Hdeck.
Qed.

Lemma untitled_outline_parsed :
  generate_content_outline untitled_env "Animal Kingdom" 3
    (logged fresh [Printed MsgGeneratingOutline])
  = (Returned (VList [VDict {[ "content" := VStr "x" ]}]),
     parsed untitled_text).
Proof. vm_compute. reflexivity. Qed.

Lemma missing_fields_default_witness :
  loop_body sparse_env (VList [VDict {[ "title" := VStr "T" ]}; VDict ∅]) 1
    (VDict ∅) fresh =
  (print (MsgCreatingSlide 2 2 (VStr EmptyString) "content") ;;;
   create_content_slide sparse_env (VStr EmptyString) (VStr EmptyString) true)
    fresh /\
  (exists w',
     loop_body sparse_env (VList [VDict {[ "title" := VStr "T" ]}; VDict ∅]) 1
       (VDict ∅) fresh = (Returned tt, w') /\
     length (slides w') = 1%nat) /\
  fst (generate_presentation untitled_env "Animal Kingdom" 3
         "AI_Presentation.pptx" fresh) = Raised (KeyError (VStr "title")) /\
  exists w2,
    generate_presentation sparse_env "Animal Kingdom" 3 "AI_Presentation.pptx"
      fresh = (Returned (VStr "AI_Presentation.pptx"), w2) /\
    length (slides w2) = 2%nat.
Proof.
  split; [|split; [|split]].
  - exact (proj1 (missing_fields_default sparse_env "Animal Kingdom" 3
                    "AI_Presentation.pptx" fresh fresh
                    [VDict {[ "title" := VStr "T" ]}; VDict ∅] 1 ∅ ∅ [])
                 eq_refl).
  - destruct (missing_fields_default sparse_env "Animal Kingdom" 3
                "AI_Presentation.pptx" fresh fresh
                [VDict {[ "title" := VStr "T" ]}; VDict ∅] 1 ∅ ∅ [])
      as (_ & Hloose & _).
    destruct (Hloose empty_dict_loose)
      as (r & w' & Hrun & (s & Hs & _) & _ & Hr).
    rewrite (Hr (offline_photos_place _ _)) in Hrun.
    exists w'. split; [exact Hrun|]. now rewrite Hs.
  - destruct (missing_fields_default untitled_env "Animal Kingdom" 3
                "AI_Presentation.pptx" fresh (parsed untitled_text) [] 1 ∅
                {[ "content" := VStr "x" ]} []) as (_ & _ & Hfirst).
    destruct (Hfirst untitled_outline_parsed) as [Hraise _].
    now rewrite (Hraise eq_refl).
  - destruct (missing_fields_default sparse_env "Animal Kingdom" 3
                "AI_Presentation.pptx" fresh (parsed sparse_text) [] 1 ∅
                {[ "title" := VStr "T" ]} [VDict ∅]) as (_ & _ & Hfirst).
    destruct (Hfirst sparse_outline_parsed) as [_ Hruns].
    destruct (Hruns "T" eq_refl
                ltac:(repeat constructor; exact empty_dict_loose))
      as [_ Hdone].
    destruct (Hdone (offline_photos_place _ _) (offline_writable _ _ _))
      as (w2 & Hrun & Hlen).
    exists w2. split; [exact Hrun | exact Hlen].
Defined.

(** ** The animal kingdom *)

(** C5, as stated, fails where the photo service delivers a file in
    which the presentation library recognises no picture: the build on
    the outline of the animal kingdom raises while it places the picture
    of the second slide. The deck has two slides, nothing is saved, and
    the temporary file is left on the disk. It fails as well, on any
    machine, for a generator that has built the deck once already: the
    second build leaves six slides. *)
Lemma animal_kingdom_aborts :
  (generate_content_outline animal_env "Animal Kingdom" 3
     (logged fresh [Printed MsgGeneratingOutline])
   = (Returned animal_outline, parsed animal_text) /\
   exists w2,
     generate_presentation animal_env "Animal Kingdom" 3 "AI_Presentation.pptx"
       fresh = (Raised not_a_picture, w2) /\
     layout <$> slides w2 = [0; 1]%nat /\
     saved w2 = [] /\
     files w2 = {[ temp_img := "JFIF" ]} /\
     trace w2 =
     [Printed MsgGeneratingOutline;
      CallModel (OutlinePrompt "Animal Kingdom" 3);
      CallJsonLoads animal_text;
      Printed MsgCreatingTitle;
      Printed (MsgCreatingSlide 2 3 (VStr "Mammals") "content");
      CallVision (ImageQueryPrompt (VStr mammals_content));
      CallGetenv "PEXELS_API_KEY";
      CallSearch pexels_url (VStr "secret") "a cat";
      CallFetch (VStr photo_url);
      CallOpen temp_img]) /\
  (exists w2 w3,
     generate_presentation animal_keyed_env "Animal Kingdom" 3
       "AI_Presentation.pptx" fresh
     = (Returned (VStr "AI_Presentation.pptx"), w2) /\
     generate_content_outline animal_keyed_env "Animal Kingdom" 3
       (logged w2 [Printed MsgGeneratingOutline])
     = (Returned animal_outline,
        logged w2 [Printed MsgGeneratingOutline;
                   CallModel (OutlinePrompt "Animal Kingdom" 3);
                   CallJsonLoads animal_text]) /\
     generate_presentation animal_keyed_env "Animal Kingdom" 3
       "AI_Presentation.pptx" w2
     = (Returned (VStr "AI_Presentation.pptx"), w3) /\
     layout <$> slides w3 = [0; 1; 1; 0; 1; 1]%nat).
Proof.
  split.
  - split; [exact animal_outline_parsed|].
    eexists. split; [vm_compute; reflexivity|]. repeat split.
  - eexists _, _. split; [vm_compute; reflexivity|].
    split; [vm_compute; reflexivity|].
    split; [vm_compute; reflexivity|]. reflexivity.
Qed.

(** C5, amended. On the topic "Animal Kingdom" with three slides asked
    for and the outline title / content / conclusion, the second slide
    asks for an image query on its content and looks a photo up. If the
    presentation library refuses the photo that has been fetched, the
    build raises there, with two slides added to the deck. Otherwise
    exactly three slides are added - the deck of a new generator has
    exactly three slides -, and between the announcement of the third
    slide and the saving of the file nothing happens outside the deck:
    the third slide fetches no image and has no picture. Where every
    fetched photo is a picture the deck has three slides, and where the
    file can be written too, the build returns the output file. *)
Theorem animal_kingdom_deck (E : Env) (output_file : string) (w w1 : world) :
  generate_content_outline E "Animal Kingdom" 3
    (logged w [Printed MsgGeneratingOutline]) = (Returned animal_outline, w1) ->
  let title := title_slide "Animal Kingdom" EmptyString in
  let summary := content_slide "Summary" "- Diverse" in
  let third := Printed (MsgCreatingSlide 3 3 (VStr "Summary") "conclusion") in
  exists r w2 mammals evs,
    generate_presentation E "Animal Kingdom" 3 output_file w = (r, w2) /\
    same_text (content_slide "Mammals" mammals_content) mammals /\
    run_text <$> bullets mammals = [EmptyString; "Warm blooded"; "Fur"] /\
    run_text <$> bullets summary = [EmptyString; "Diverse"] /\
    picture_of summary = None /\
    In (CallGetenv "PEXELS_API_KEY") evs /\ Forall image_event evs /\
    let second :=
      [Printed MsgCreatingTitle;
       Printed (MsgCreatingSlide 2 3 (VStr "Mammals") "content");
       CallVision (ImageQueryPrompt (VStr mammals_content))] ++ evs in
    ((exists e, placement_fails E e /\ r = Raised e /\
        slides w2 = slides w ++ [title; mammals] /\
        saved w2 = saved w /\
        trace w2 = trace w1 ++ second) \/
     (slides w2 = slides w ++ [title; mammals; summary] /\
      ((r = Returned (VStr output_file) /\
        saved w2 = saved w ++ [(output_file, slides w2)] /\
        trace w2 = trace w1 ++ second
                   ++ [third; CallSave output_file; Printed (MsgSaved output_file)])
       \/
       (exists e,
          file_save E (trace w1 ++ second ++ [third]) output_file = Raised e /\
          r = Raised e /\ saved w2 = saved w /\
          trace w2 = trace w1 ++ second ++ [third; CallSave output_file])))) /\
    (photos_place E -> slides w2 = slides w ++ [title; mammals; summary]) /\
    (photos_place E -> writable E output_file ->
     r = Returned (VStr output_file)).
Proof.
  intros Hout title summary third. unfold animal_outline, slide_spec in Hout.
  rewrite (presentation_after_outline E _ _ output_file w _ _ _ Hout).
  destruct (outline_keeps_deck E _ _ _ _ _ Hout) as (Hs1 & _ & Hv1 & _).
  unfold bind at 1, print at 1, log.
  unfold bind at 1, lift at 1. change (getitem _ "title") with
    (@Returned value (VStr "Animal Kingdom")). cbv iota.
  unfold bind at 1, lift at 1. change (dict_get _ "content" _) with
    (@Returned value (VStr EmptyString)). cbv iota.
  unfold bind at 1. rewrite create_title_slide_run. fold title.
  unfold bind at 1. simpl enumerate. simpl for_each.
  unfold bind at 1. unfold bind at 1.
  set (w1' := pushed (logged w1 [Printed MsgCreatingTitle]) title).
  rewrite (loop_body_dispatch E _ 1 _ w1') by (right; eexists; reflexivity).
  cbv zeta.
  change (default (VStr EmptyString) (_ !! "title")) with (VStr "Mammals").
  change (default (VStr EmptyString) (_ !! "content")) with (VStr mammals_content).
  change (Py.lower (field "content" _ "slide_type")) with "content".
  cbv iota beta. simpl String.eqb. cbv iota.
  unfold bind at 1, print at 1, log.
  set (p := ImageQueryPrompt (VStr mammals_content)).
  match goal with
  | |- context [create_content_slide E _ _ true ?w0] =>
      destruct (content_slide_cases E "Mammals" mammals_content w0)
        as (q & evq & r2 & w2 & s & evs & _ & (Hevq & _) & Hrun & Hs & Hv & Ht
            & (Hevs & _) & Hcase)
  end.
  fold p in Ht, Hcase. rewrite Hrun. simpl in Hs, Hv, Ht.
  rewrite <- !app_assoc in Ht. simpl in Ht.
  assert (Hb : same_text (content_slide "Mammals" mammals_content) s).
  { destruct Hcase as [(_ & -> & _) | [(im & tr & _ & _ & _ & -> & _)
                                      | (im & tr & e & _ & _ & _ & -> & _)]];
      repeat split. }
  assert (Hr : r2 = Returned tt \/ exists e, r2 = Raised e /\ placement_fails E e).
  { destruct Hcase as [(-> & _) | [(im & tr & _ & _ & -> & _)
                                  | (im & tr & e & Hf & Hp & -> & _)]]; auto.
    right. exists e. split; [reflexivity|]. eexists q, _, im, tr. eauto. }
  clear Hcase Hrun.
  assert (Hin : In (CallGetenv "PEXELS_API_KEY")
                   (evq ++ CallGetenv "PEXELS_API_KEY" :: evs))
    by (apply in_or_app; right; now left).
  assert (Hall : Forall image_event (evq ++ CallGetenv "PEXELS_API_KEY" :: evs))
    by (apply Forall_app; split; [assumption|];
        constructor; [exact I | assumption]).
  assert (Hbul : run_text <$> bullets s = [EmptyString; "Warm blooded"; "Fur"]).
  { destruct Hb as (_ & _ & _ & -> & _). vm_compute. reflexivity. }
  destruct Hr as [-> | (e & -> & He)].
  - unfold bind at 1.
    rewrite (loop_body_dispatch E _ (1 + 1) _ w2) by (right; eexists; reflexivity).
    cbv zeta.
    change (default (VStr EmptyString) (_ !! "title")) with (VStr "Summary").
    change (default (VStr EmptyString) (_ !! "content")) with (VStr "- Diverse").
    change (Py.lower (field "content" _ "slide_type")) with "conclusion".
    simpl String.eqb. cbv iota.
    unfold bind at 1, print at 1, log.
    rewrite content_slide_no_image. fold summary. fold third.
    unfold bind, ret, save, print, log. simpl.
    rewrite Ht, <- !app_assoc. simpl.
    destruct (file_save E _ output_file) as [e|[]] eqn:Hsave.
    + eexists _, _, s, (evq ++ CallGetenv "PEXELS_API_KEY" :: evs).
      split; [reflexivity|]. simpl. rewrite Hs, Hv, Hs1, Hv1, Ht.
      rewrite <- !app_assoc. simpl.
      do 6 (split; [first [assumption | reflexivity]|]).
      split; [|split].
      * right. split; [reflexivity|]. right. exists e.
        rewrite <- !app_assoc in *. simpl in *.
        split; [exact Hsave|]. repeat split.
      * reflexivity.
      * intros _ Hw. now rewrite Hw in Hsave.
    + eexists _, _, s, (evq ++ CallGetenv "PEXELS_API_KEY" :: evs).
      split; [reflexivity|]. simpl. rewrite Hs, Hv, Hs1, Hv1, ?Ht.
      rewrite <- !app_assoc. simpl.
      do 6 (split; [first [assumption | reflexivity]|]).
      split; [|split; [reflexivity | reflexivity]].
      right. split; [reflexivity|]. left. rewrite <- !app_assoc. simpl.
      repeat split. rewrite <- !app_assoc. reflexivity.
  - exists (Raised e), w2, s, (evq ++ CallGetenv "PEXELS_API_KEY" :: evs).
    split; [reflexivity|].
    do 6 (split; [first [assumption | reflexivity]|]).
    split; [|split].
    + left. exists e. rewrite Hs, Hv, Ht, Hs1, Hv1. simpl.
      rewrite <- !app_assoc. auto.
    + intros Hplace. now apply photos_place_sound in He.
    + intros Hplace. now apply photos_place_sound in He.
Qed.

Lemma animal_kingdom_deck_witness :
  exists w2,
    generate_presentation animal_offline_env "Animal Kingdom" 3
      "AI_Presentation.pptx" fresh
    = (Returned (VStr "AI_Presentation.pptx"), w2) /\
    length (slides w2) = 3%nat /\
    In (CallVision (ImageQueryPrompt (VStr mammals_content))) (trace w2) /\
    In (CallGetenv "PEXELS_API_KEY") (trace w2).
Proof.
  destruct (animal_kingdom_deck animal_offline_env "AI_Presentation.pptx" fresh
              (parsed animal_text) animal_outline_offline)
    as (r & w2 & mammals & evs & Hrun & _ & _ & _ & _ & Hin & _ & Hcase & Hs & Hr).
  rewrite (Hr (offline_photos_place _ _) (offline_writable _ _ _)) in Hrun.
  exists w2. split; [exact Hrun|]. split.
  - now rewrite (Hs (offline_photos_place _ _)).
  - destruct Hcase as [(e & _ & He & _) | (_ & [(_ & _ & Ht) | (e & _ & He & _)])];
      [rewrite (Hr (offline_photos_place _ _) (offline_writable _ _ _)) in He;
       discriminate
      | | rewrite (Hr (offline_photos_place _ _) (offline_writable _ _ _)) in He;
          discriminate].
    rewrite Ht. split; apply in_or_app; right; apply in_or_app; left.
    + right. right. now left.
    + right. right. right. exact Hin.
Defined.

(** The same run, step by step, on a machine without network: three
    slides, none with a picture, the text box of the second one as wide
    as it was; the image query and the key have been asked for once,
    for the second slide. *)
Lemma animal_kingdom_run :
  let w2 := snd (generate_presentation animal_offline_env "Animal Kingdom" 3
                   "AI_Presentation.pptx" fresh) in
  layout <$> slides w2 = [0; 1; 1]%nat /\
  (fun s => run_text <$> bullets s) <$> slides w2
  = [[]; [EmptyString; "Warm blooded"; "Fur"]; [EmptyString; "Diverse"]] /\
  (fun s => pic_data <$> picture_of s) <$> slides w2 = [None; None; None] /\
  body_width <$> slides w2 = [None; None; None] /\
  files w2 = ∅ /\
  saved w2 = [("AI_Presentation.pptx", slides w2)] /\
  trace w2 =
  [Printed MsgGeneratingOutline;
   CallModel (OutlinePrompt "Animal Kingdom" 3);
   CallJsonLoads animal_text;
   Printed MsgCreatingTitle;
   Printed (MsgCreatingSlide 2 3 (VStr "Mammals") "content");
   CallVision (ImageQueryPrompt (VStr mammals_content));
   Printed (MsgImageDescError (ServiceError "offline"));
   CallGetenv "PEXELS_API_KEY";
   Printed MsgNoKey;
   Printed (MsgCreatingSlide 3 3 (VStr "Summary") "conclusion");
   CallSave "AI_Presentation.pptx";
   Printed (MsgSaved "AI_Presentation.pptx")].
Proof. repeat split; vm_compute; reflexivity. Qed.

(** * Further properties *)

(** ** Prose around the fences *)

Section AroundFences.

Import Py.

(** The first fence after a fence-free text that ends its line is the
    one that follows, whatever comes after it. *)
Lemma first_fence_after (t rest : string) :
  partition fence t = None ->
  partition fence (t +:+ nl +:+ fence +:+ rest) = Some (t +:+ nl, rest).
Proof.
  induction t as [|c t IH]; intros H.
  - reflexivity.
  - apply partition_None_inv in H as [Hs Hp].
    pose proof (startswith_fence_nl _ (fence +:+ rest) Hs) as Hs'.
    change (String c t +:+ nl +:+ fence +:+ rest)
      with (String c (t +:+ nl +:+ fence +:+ rest)) in *.
    now rewrite partition_unfold, Hs', (IH Hp).
Qed.

Lemma first_json_fence_after (t rest : string) :
  partition fence t = None ->
  partition json_fence (t +:+ nl +:+ json_fence +:+ rest)
  = Some (t +:+ nl, rest).
Proof.
  induction t as [|c t IH]; intros H.
  - reflexivity.
  - apply partition_None_inv in H as [Hs Hp].
    pose proof (startswith_fence_nl _ (json_fence +:+ rest) Hs) as Hs'.
    change (String c t +:+ nl +:+ json_fence +:+ rest)
      with (String c (t +:+ nl +:+ json_fence +:+ rest)) in *.
    rewrite partition_unfold.
    destruct (startswith json_fence
                (String c (t +:+ nl +:+ json_fence +:+ rest))) eqn:Hj.
    + assert (startswith fence (String c (t +:+ nl +:+ json_fence +:+ rest))
              = true)
        by (eapply startswith_trans; [|exact Hj]; reflexivity).
      congruence.
    + now rewrite (IH Hp).
Qed.

Lemma first_piece_cons (sep : string) (c : ascii) (s : string) :
  startswith sep (String c s) = false ->
  first_piece sep (String c s) = String c (first_piece sep s).
Proof.
  intros H. unfold first_piece. rewrite (partition_unfold sep (String c s)), H.
  destruct (partition sep s) as [[a b]|]; reflexivity.
Qed.

(** The first piece of a string is a prefix of it. *)
Lemma first_piece_prefix (sep s : string) :
  exists r, s = first_piece sep s +:+ r.
Proof.
  unfold first_piece. destruct (partition sep s) as [[a b]|] eqn:Hp.
  - exists (sep +:+ b). now apply partition_Some.
  - exists EmptyString. now rewrite append_nil_r.
Qed.

Lemma startswith_first_piece (pre sep s : string) :
  startswith pre s = false -> startswith pre (first_piece sep s) = false.
Proof.
  intros H. destruct (startswith pre (first_piece sep s)) eqn:Hf; [|reflexivity].
  destruct (first_piece_prefix sep s) as [r Hr].
  apply (startswith_weaken _ _ r) in Hf. rewrite <- Hr in Hf. congruence.
Qed.

(** What lies between an opening [```json] and the closing fence of a
    fence-free text, when the closing fence ends its line: the text, and
    nothing of what follows. *)
Lemma body_before_closing_fence (t post : string) :
  partition fence t = None ->
  first_piece fence
    (first_piece json_fence (t +:+ nl +:+ fence +:+ nl +:+ post))
  = t +:+ nl.
Proof.
  induction t as [|c t IH]; intros H.
  - change (EmptyString +:+ nl +:+ fence +:+ nl +:+ post)
      with (String "010" (String "`" (String "`" (String "`"
              (String "010" post))))).
    rewrite !(first_piece_cons json_fence) by reflexivity.
    reflexivity.
  - apply partition_None_inv in H as [Hs Hp].
    pose proof (startswith_fence_nl _ (fence +:+ nl +:+ post) Hs) as Hs'.
    change (String c t +:+ nl +:+ fence +:+ nl +:+ post)
      with (String c (t +:+ nl +:+ fence +:+ nl +:+ post)) in *.
    rewrite (first_piece_cons json_fence).
    + rewrite (first_piece_cons fence).
      * now rewrite (IH Hp).
      * destruct (first_piece_prefix json_fence
                    (t +:+ nl +:+ fence +:+ nl +:+ post)) as [r Hr].
        set (Z := first_piece json_fence
                    (t +:+ nl +:+ fence +:+ nl +:+ post)) in *.
        destruct (startswith fence (String c Z)) eqn:Hf; [|reflexivity].
        apply (startswith_weaken _ _ r) in Hf.
        change (String c Z +:+ r) with (String c (Z +:+ r)) in Hf.
        rewrite <- Hr in Hf. congruence.
    + destruct (startswith json_fence
                  (String c (t +:+ nl +:+ fence +:+ nl +:+ post))) eqn:Hj;
        [|reflexivity].
      assert (startswith fence
                (String c (t +:+ nl +:+ fence +:+ nl +:+ post)) = true)
        by (eapply startswith_trans; [|exact Hj]; reflexivity).
      congruence.
Qed.

End AroundFences.

Section FencedBlock.

Import Py.

Lemma fence_free_line (pre : string) :
  contains fence (pre +:+ nl) = false -> partition fence pre = None.
Proof.
  intros H. destruct (partition fence pre) as [[a b]|] eqn:Hp; [|reflexivity].
  apply partition_Some in Hp. subst pre.
  assert (contains fence ((a +:+ fence +:+ b) +:+ nl) = true); [|congruence].
  apply contains_true. exists a, (b +:+ nl). now rewrite !append_assoc.
Qed.

Lemma not_contains (sub s : string) :
  contains sub s = false -> partition sub s = None.
Proof. unfold contains. now destruct (partition sub s). Qed.

(** The opening [```json] of a line is the first one of the text. *)
Lemma opening_json_fence (lead rest : string) :
  ends_line lead -> contains fence lead = false ->
  partition json_fence (lead +:+ json_fence +:+ rest) = Some (lead, rest).
Proof.
  intros [-> | [pre ->]] Hf.
  - reflexivity.
  - rewrite append_assoc. apply first_json_fence_after.
    now apply fence_free_line.
Qed.

Lemma opening_fence (lead rest : string) :
  ends_line lead -> contains fence lead = false ->
  partition fence (lead +:+ fence +:+ rest) = Some (lead, rest).
Proof.
  intros [-> | [pre ->]] Hf.
  - reflexivity.
  - rewrite append_assoc. apply first_fence_after.
    now apply fence_free_line.
Qed.

(** Between the opening line and the closing fence: the text, on its
    lines. *)
Lemma fenced_body (t rest : string) :
  contains fence t = false -> starts_line rest ->
  first_piece fence
    (first_piece json_fence (nl +:+ t +:+ nl +:+ fence +:+ rest))
  = nl +:+ t +:+ nl.
Proof.
  intros Hf%not_contains Hrest.
  change (nl +:+ t +:+ nl +:+ fence +:+ rest)
    with (String "010" (t +:+ nl +:+ fence +:+ rest)).
  rewrite (first_piece_cons json_fence) by reflexivity.
  rewrite (first_piece_cons fence) by reflexivity.
  change (nl +:+ t +:+ nl) with (String "010" (t +:+ nl)). f_equal.
  destruct Hrest as [-> | [post ->]].
  - destruct (closing_fence t Hf) as [H1 H2].
    change (fence +:+ EmptyString) with fence.
    unfold first_piece at 2. rewrite H2. unfold first_piece. now rewrite H1.
  - now apply body_before_closing_fence.
Qed.

Lemma bare_fenced_body (t rest : string) :
  contains fence t = false ->
  first_piece fence (nl +:+ t +:+ nl +:+ fence +:+ rest) = nl +:+ t +:+ nl.
Proof.
  intros Hf%not_contains.
  change (nl +:+ t +:+ nl +:+ fence +:+ rest)
    with (String "010" (t +:+ nl +:+ fence +:+ rest)).
  rewrite (first_piece_cons fence) by reflexivity.
  unfold first_piece. now rewrite (first_fence_after t rest Hf).
Qed.

(** X1. A [```json] block on lines of its own is taken out of the prose
    around it: with fence-free prose before the opening line and anything
    after the closing line, the text handed to the array check is the
    text of the block, stripped. *)
Theorem prose_around_json_fence (text lead t rest : string) :
  strip text = lead +:+ fenced t +:+ rest ->
  ends_line lead -> contains fence lead = false ->
  contains fence t = false -> starts_line rest ->
  response_content text = Returned (strip t).
Proof.
  intros Htext Hlead Hfl Hft Hrest. unfold response_content. rewrite Htext.
  assert (Hcut : partition json_fence (lead +:+ fenced t +:+ rest)
                 = Some (lead, nl +:+ t +:+ nl +:+ fence +:+ rest)).
  { unfold fenced. rewrite !append_assoc. now apply opening_json_fence. }
  unfold strip_fences, contains. rewrite Hcut.
  rewrite (split_item1 _ _ _ _ json_fence_nonempty Hcut), split_item0.
  now rewrite fenced_body, strip_between_lines.
Qed.

Lemma prose_around_json_fence_witness :
  response_content chatty_text = Returned pair_text.
Proof.
  apply (prose_around_json_fence chatty_text
           ("Here is the outline:" +:+ nl) pair_text
           (nl +:+ "Hope this helps!")).
  - reflexivity.
  - right. now exists "Here is the outline:".
  - reflexivity.
  - reflexivity.
  - right. now exists "Hope this helps!".
Defined.

(** X2. A block between two bare [```] lines is taken out too, when no
    [```json] occurs in the response: fence-free prose before the opening
    line and whatever follows the closing fence are dropped. *)
Theorem prose_around_bare_fence (text lead t rest : string) :
  strip text = lead +:+ bare_fenced t +:+ rest ->
  contains json_fence (strip text) = false ->
  ends_line lead -> contains fence lead = false ->
  contains fence t = false ->
  response_content text = Returned (strip t).
Proof.
  intros Htext Hj Hlead Hfl Hft. unfold response_content.
  unfold strip_fences. rewrite Hj. rewrite Htext.
  assert (Hcut : partition fence (lead +:+ bare_fenced t +:+ rest)
                 = Some (lead, nl +:+ t +:+ nl +:+ fence +:+ rest)).
  { unfold bare_fenced. rewrite !append_assoc. now apply opening_fence. }
  unfold contains. rewrite Hcut.
  rewrite (split_item1 _ _ _ _ fence_nonempty Hcut).
  now rewrite bare_fenced_body, strip_between_lines.
Qed.

Lemma prose_around_bare_fence_witness :
  response_content chatty_bare_text = Returned pair_text.
Proof.
  apply (prose_around_bare_fence chatty_bare_text
           ("Here is the outline:" +:+ nl) pair_text " Hope this helps!").
  - reflexivity.
  - reflexivity.
  - right. now exists "Here is the outline:".
  - reflexivity.
  - reflexivity.
Defined.

End FencedBlock.

(** ** The failures of the outline step *)

(** X3. When the request of [generate_content_outline] raises, the
    method returns [None] and prints the error - unless the error is a
    [json.JSONDecodeError]: the clause for that error prints [content],
    which is not bound yet, and [UnboundLocalError] escapes the method.
    When the text passes the bracket check and [json.loads] rejects it,
    the method prints the text and returns [None]. *)
Theorem outline_error_paths (E : Env) (topic : string) (num_slides : Z)
    (w : world) :
  let prompt := OutlinePrompt topic num_slides in
  (forall e, model_generate E (trace w) prompt = Raised e ->
     e <> JSONDecodeError ->
     generate_content_outline E topic num_slides w =
     (Returned VNone, logged w [CallModel prompt; Printed (MsgOutlineError e)])) /\
  (model_generate E (trace w) prompt = Raised JSONDecodeError ->
     generate_content_outline E topic num_slides w =
     (Raised UnboundLocalError, logged w [CallModel prompt])) /\
  (forall text c, model_generate E (trace w) prompt = Returned text ->
     response_content text = Returned c ->
     is_array_text c = true -> json_loads E c = None ->
     generate_content_outline E topic num_slides w =
     (Returned VNone,
      logged w [CallModel prompt; CallJsonLoads c;
                Printed (MsgJSONDecodeError c)])).
Proof.
  intros prompt. split; [|split].
  - intros e He Hne. rewrite (outline_of_failure E topic num_slides w e He).
    now destruct e.
  - intros He. now rewrite (outline_of_failure E topic num_slides w _ He).
  - intros text c Ht Hc Ha Hl.
    rewrite (outline_of_response E topic num_slides w text c Ht Hc).
    now rewrite Ha, Hl.
Qed.

Lemma outline_error_paths_witness :
  fst (generate_content_outline quota_env "Animal Kingdom" 3 fresh)
  = Returned VNone /\
  fst (generate_content_outline decode_error_env "Animal Kingdom" 3 fresh)
  = Raised UnboundLocalError /\
  fst (generate_content_outline broken_env "Animal Kingdom" 3 fresh)
  = Returned VNone.
Proof.
  destruct (outline_error_paths quota_env "Animal Kingdom" 3 fresh)
    as (Hquota & _ & _).
  destruct (outline_error_paths decode_error_env "Animal Kingdom" 3 fresh)
    as (_ & Hdecode & _).
  destruct (outline_error_paths broken_env "Animal Kingdom" 3 fresh)
    as (_ & _ & Hbroken).
  rewrite (Hquota (ServiceError "quota exceeded") eq_refl ltac:(discriminate)).
  rewrite (Hdecode eq_refl).
  rewrite (Hbroken broken_text broken_text eq_refl eq_refl eq_refl eq_refl).
  repeat split.
Defined.

(** X4. The build stops on an outline that is [None], empty or falsy in
    any other way: [generate_presentation] prints the failure and returns
    [None]; the deck, the files and the saved presentations are as they
    were, and after the outline step no service is called. In particular
    a failed outline request ends the build with four events. *)
Theorem falsy_outline_stops_build (E : Env) (topic : string) (num_slides : Z)
    (output_file : string) (w w1 : world) (outline : value) :
  generate_content_outline E topic num_slides
    (logged w [Printed MsgGeneratingOutline]) = (Returned outline, w1) ->
  truthy outline = false ->
  generate_presentation E topic num_slides output_file w
  = (Returned VNone, logged w1 [Printed MsgOutlineFailed]) /\
  slides w1 = slides w /\ files w1 = files w /\ saved w1 = saved w /\
  (forall e,
     model_generate E (trace w ++ [Printed MsgGeneratingOutline])
       (OutlinePrompt topic num_slides) = Raised e ->
     e <> JSONDecodeError ->
     w1 = logged w [Printed MsgGeneratingOutline;
                    CallModel (OutlinePrompt topic num_slides);
                    Printed (MsgOutlineError e)]).
Proof.
  intros Hout Hfalse.
  destruct (outline_keeps_deck E topic num_slides _ _ _ Hout)
    as (Hs & Hf & Hv & _).
  split; [|split; [exact Hs | split; [exact Hf | split; [exact Hv|]]]].
  - unfold generate_presentation.
    unfold bind at 1, print at 1, log.
    unfold bind at 1. rewrite Hout.
    unfold bind at 1. now rewrite Hfalse.
  - intros e He Hne.
    rewrite (outline_of_failure E topic num_slides
               (logged w [Printed MsgGeneratingOutline]) e He) in Hout.
    rewrite logged_logged in Hout.
    destruct e; try congruence; now injection Hout as _ <-.
Qed.

Lemma falsy_outline_stops_build_witness :
  generate_presentation quota_env "Animal Kingdom" 3 "AI_Presentation.pptx" fresh
  = (Returned VNone,
     logged fresh [Printed MsgGeneratingOutline;
                   CallModel (OutlinePrompt "Animal Kingdom" 3);
                   Printed (MsgOutlineError (ServiceError "quota exceeded"));
                   Printed MsgOutlineFailed]).
Proof.
  assert (Hout : generate_content_outline quota_env "Animal Kingdom" 3
                   (logged fresh [Printed MsgGeneratingOutline])
                 = (Returned VNone,
                    logged fresh [Printed MsgGeneratingOutline;
                                  CallModel (OutlinePrompt "Animal Kingdom" 3);
                                  Printed (MsgOutlineError
                                             (ServiceError "quota exceeded"))]))
    by reflexivity.
  destruct (falsy_outline_stops_build quota_env "Animal Kingdom" 3
              "AI_Presentation.pptx" fresh _ VNone Hout eq_refl) as [Hrun _].
  exact Hrun.
Defined.

(** ** Pictures and the temporary file *)



(** The second outcome, on a machine where the photo service delivers a
    picture: the slide has it, and the temporary file is gone. *)
Lemma placed_photo_removes_file :
  exists w',
    create_image_slide (pictured_env (Returned pair_text) pair_loads)
      (VStr "T") (VStr "C") "a cat" fresh = (Returned tt, w') /\
    slides w' = [with_picture (image_slide "T" "C")
                   (Picture small_gif (Inches 100) (Inches 150) (Inches 450))] /\
    files w' = ∅ /\
    trace w' = [CallGetenv "PEXELS_API_KEY";
                CallSearch pexels_url (VStr "secret") "a cat";
                CallFetch (VStr photo_url); CallOpen temp_img;
                CallRemove temp_img].
Proof. eexists. split; [vm_compute; reflexivity|]. repeat split. Qed.

(** The third outcome, on a machine where the photo service delivers
    four bytes that are no picture: the exception of the library comes
    out, the slide is in the deck, and the temporary file is left. *)
Lemma refused_photo_leaves_file :
  exists w',
    create_image_slide (stocked_env (Returned pair_text) pair_loads)
      (VStr "T") (VStr "C") "a cat" fresh = (Raised not_a_picture, w') /\
    slides w' = [image_slide "T" "C"] /\
    files w' = {[ temp_img := "JFIF" ]} /\
    trace w' = [CallGetenv "PEXELS_API_KEY";
                CallSearch pexels_url (VStr "secret") "a cat";
                CallFetch (VStr photo_url); CallOpen temp_img].
Proof. eexists. split; [vm_compute; reflexivity|]. repeat split. Qed.

(** X11. Where the search request raises whenever it is made - as it
    does on the URL of line 79 with a library that looks for a scheme -
    [download_image] returns [None] for every query: it raises nothing,
    the deck and the files are as they were, and no photo is fetched, so
    that no renderer ever places a picture. *)
Theorem no_photo_without_search (E : Env) (query save_path : string)
    (w : world) :
  (forall tr key q, exists e,
     http_get_json E tr pexels_url key q = Raised e) ->
  (exists w',
     download_image E query save_path w = (Returned VNone, w') /\
     slides w' = slides w /\ files w' = files w /\ saved w' = saved w) /\
  (forall image tr, ~ fetched E query save_path tr image) /\
  photos_place E.
Proof.
  intros Hno. split; [|split].
  - destruct (download_image_cases E query save_path w)
      as [(w' & evs & H & Hs & Hf & Hv & _)
         | (data & ? & ? & ? & ? & ? & _ & Hd & _)].
    + exists w'. auto.
    + destruct (Hno (trace w ++ [CallGetenv "PEXELS_API_KEY"])
                  match getenv E (trace w) "PEXELS_API_KEY" with
                  | Some s => VStr s
                  | None => VNone
                  end query) as [e He].
      rewrite He in Hd. discriminate.
  - intros image tr (data & ? & ? & ? & ? & _ & Hd & _).
    destruct (Hno (tr ++ [CallGetenv "PEXELS_API_KEY"]) (pexels_key E tr) query)
      as [e He].
    rewrite He in Hd. discriminate.
  - now apply no_search_no_photo.
Qed.

Lemma no_photo_without_search_witness :
  getenv animal_keyed_env (trace fresh) "PEXELS_API_KEY" = Some "secret" /\
  exists w',
    download_image animal_keyed_env "a cat" temp_img fresh = (Returned VNone, w') /\
    files w' = files fresh.
Proof.
  split; [reflexivity|].
  destruct (no_photo_without_search animal_keyed_env "a cat" temp_img fresh)
    as [(w' & Hrun & _ & Hf & _) _].
  { intros tr key q. eexists. reflexivity. }
  exists w'. split; [exact Hrun | exact Hf].
Defined.

(** ** A generator used twice *)




(** ** What every run keeps *)

Create HintDb frame discriminated.

Section Keeping.

Context (R : world -> world -> Prop) (Rrefl : forall w, R w w)
        (Rtrans : forall w1 w2 w3, R w1 w2 -> R w2 w3 -> R w1 w3).

Lemma keeps_ret {A} (a : A) : keeps R (ret a).
Proof. intros w r w' [= <- <-]. apply Rrefl. Qed.

Lemma keeps_raise {A} (e : exn) : keeps R (@raise A e).
Proof. intros w r w' [= <- <-]. apply Rrefl. Qed.

Lemma keeps_lift {A} (o : outcome A) : keeps R (lift o).
Proof. intros w r w' [= <- <-]. apply Rrefl. Qed.

Lemma keeps_bind {A B} (m : M A) (k : A -> M B) :
  keeps R m -> (forall a, keeps R (k a)) -> keeps R (bind m k).
Proof.
  intros Hm Hk w r w'. unfold bind.
  destruct (m w) as [[e|a] w1] eqn:H1.
  - intros [= <- <-]. eapply Hm, H1.
  - intros H2. eapply Rtrans; [eapply Hm, H1 | eapply Hk, H2].
Qed.

Lemma keeps_try_except {A} (body : M A) (handler : exn -> M A) :
  keeps R body -> (forall e, keeps R (handler e)) ->
  keeps R (try_except body handler).
Proof.
  intros Hm Hk w r w'. unfold try_except.
  destruct (body w) as [[e|a] w1] eqn:H1.
  - intros H2. eapply Rtrans; [eapply Hm, H1 | eapply Hk, H2].
  - intros [= <- <-]. eapply Hm, H1.
Qed.

Lemma keeps_if {A} (b : bool) (m1 m2 : M A) :
  keeps R m1 -> keeps R m2 -> keeps R (if b then m1 else m2).
Proof. now destruct b. Qed.

Lemma keeps_for_each {A} (xs : list A) (body : A -> M unit) :
  (forall x, keeps R (body x)) -> keeps R (for_each xs body).
Proof.
  intros Hb. induction xs as [|x xs IH]; simpl.
  - apply keeps_ret.
  - apply keeps_bind; [apply Hb | intros _; exact IH].
Qed.

End Keeping.

Lemma keeps_weaken (R R' : world -> world -> Prop) {A} (m : M A) :
  (forall w w', R w w' -> R' w w') -> keeps R m -> keeps R' m.
Proof. intros Hsub Hm w r w' H. eapply Hsub, Hm, H. Qed.

Lemma same_deck_refl (w : world) : same_deck w w.
Proof. now split. Qed.

Lemma same_deck_trans (w1 w2 w3 : world) :
  same_deck w1 w2 -> same_deck w2 w3 -> same_deck w1 w3.
Proof. intros [H1 H2] [H3 H4]. split; congruence. Qed.

Lemma grows_refl (w : world) : grows w w.
Proof. split; [exists []; now rewrite app_nil_r | reflexivity]. Qed.

Lemma grows_trans (w1 w2 w3 : world) :
  grows w1 w2 -> grows w2 w3 -> grows w1 w3.
Proof.
  intros [[n1 H1] H2] [[n2 H3] H4]. split; [|congruence].
  exists (n1 ++ n2). now rewrite H3, H1, app_assoc.
Qed.

Lemma builds_refl (l : list slide) (w : world) : builds l w w.
Proof. now split. Qed.

Lemma builds_trans (l : list slide) (w1 w2 w3 : world) :
  builds l w1 w2 -> builds l w2 w3 -> builds l w1 w3.
Proof. intros [H1 H2] [H3 H4]. split; [congruence | auto]. Qed.

Lemma same_deck_grows (w w' : world) : same_deck w w' -> grows w w'.
Proof.
  intros [H1 H2]. split; [|exact H2]. exists []. now rewrite app_nil_r.
Qed.

Lemma same_deck_builds (l : list slide) (w w' : world) :
  same_deck w w' -> builds l w w'.
Proof. intros [H1 H2]. split; [exact H2|]. now rewrite H1. Qed.


(** The steps that leave the deck alone. *)
Lemma keeps_log (ev : event) : keeps same_deck (log ev).
Proof. intros w r w' [= <- <-]. now split. Qed.

Lemma keeps_print (m : message) : keeps same_deck (print m).
Proof. apply keeps_log. Qed.

Lemma keeps_call {A} (ev : event) (answer : list event -> outcome A) :
  keeps same_deck (call ev answer).
Proof. intros w r w' [= <- <-]. now split. Qed.

Lemma keeps_write_file (E : Env) (path data : string) :
  keeps same_deck (write_file E path data).
Proof.
  intros w r w'. unfold write_file.
  destruct (file_write E (trace w) path); intros [= <- <-]; now split.
Qed.

Lemma keeps_os_remove (v : value) : keeps same_deck (os_remove v).
Proof.
  intros w r w'. unfold os_remove, bind, lift.
  destruct (as_path v) as [e|path]; [intros [= <- <-]; now split|].
  destruct (files w !! path); intros [= <- <-]; now split.
Qed.

#[local] Hint Resolve keeps_log keeps_print keeps_call keeps_write_file
  keeps_os_remove : frame.

Lemma keeps_same_grows {A} (m : M A) : keeps same_deck m -> keeps grows m.
Proof. apply keeps_weaken, same_deck_grows. Qed.

Lemma keeps_same_builds {A} (l : list slide) (m : M A) :
  keeps same_deck m -> keeps (builds l) m.
Proof. apply keeps_weaken, same_deck_builds. Qed.

Ltac rel_side :=
  first [ exact same_deck_refl | exact same_deck_trans
        | exact grows_refl | exact grows_trans
        | exact (builds_refl _) | exact (builds_trans _) ].

Ltac keep_leaf :=
  first [ apply keeps_ret; rel_side | apply keeps_raise; rel_side
        | apply keeps_lift; rel_side
        | solve [auto with frame]
        | apply keeps_same_grows; solve [auto with frame]
        | apply keeps_same_builds; solve [auto with frame] ].

Ltac keep_steps :=
  repeat first
    [ keep_leaf
    | apply keeps_bind; [rel_side | | intros ?]
    | apply keeps_try_except; [rel_side | | intros ?]
    | apply keeps_for_each; [rel_side | rel_side | intros ?]
    | apply keeps_if ].

Lemma keeps_image_description (E : Env) (content : value) :
  keeps same_deck (generate_image_description E content).
Proof. unfold generate_image_description. keep_steps. Qed.

Lemma keeps_download_image (E : Env) (query save_path : string) :
  keeps same_deck (download_image E query save_path).
Proof. unfold download_image, os_getenv. keep_steps. Qed.

#[local] Hint Resolve keeps_image_description keeps_download_image : frame.

(** The steps that work on the slide under construction. *)
Lemma keeps_update_slide (l : list slide) (f : slide -> slide) :
  keeps (builds l) (update_slide (length l) f).
Proof.
  intros w r w' [= <- <-]. split; [reflexivity|].
  intros [s Hs]. simpl. rewrite Hs, alter_last. eauto.
Qed.

#[local] Hint Resolve keeps_update_slide : frame.

Lemma keeps_set_title (l : list slide) (v : value) (sty : style) :
  keeps (builds l) (set_title (length l) v sty).
Proof. unfold set_title. keep_steps. Qed.

Lemma keeps_set_subtitle (l : list slide) (v : value) (sty : style) :
  keeps (builds l) (set_subtitle (length l) v sty).
Proof. unfold set_subtitle. keep_steps. Qed.

Lemma keeps_clear_body (l : list slide) : keeps (builds l) (clear_body (length l)).
Proof. unfold clear_body. keep_steps. Qed.

Lemma keeps_add_paragraph (l : list slide) (s : string) (sty : style) :
  keeps (builds l) (add_paragraph (length l) s sty).
Proof. unfold add_paragraph. keep_steps. Qed.

Lemma keeps_set_body_width (l : list slide) (wd : Z) :
  keeps (builds l) (set_body_width (length l) wd).
Proof. unfold set_body_width. keep_steps. Qed.

Lemma keeps_add_textbox (l : list slide) (a b c d : Z) (v : value) (sty : style) :
  keeps (builds l) (add_textbox (length l) a b c d v sty).
Proof. unfold add_textbox. keep_steps. Qed.

Lemma keeps_add_picture (E : Env) (l : list slide) (v : value) (a b c : Z) :
  keeps (builds l) (add_picture E (length l) v a b c).
Proof.
  unfold add_picture. apply keeps_bind; [rel_side | keep_leaf |].
  intros path w r w'. destruct (files w !! path) as [data|].
  - destruct (image_parse E (trace w) data).
    + intros [= <- <-]. apply builds_refl.
    + apply keeps_update_slide.
  - intros [= <- <-]. apply builds_refl.
Qed.

#[local] Hint Resolve keeps_set_title keeps_set_subtitle keeps_clear_body
  keeps_add_paragraph keeps_set_body_width keeps_add_textbox
  keeps_add_picture : frame.

(** A renderer: a new slide, and then work on that slide only. *)
Lemma keeps_add_slide_then {A} (lay : nat) (k : nat -> M A) :
  (forall l, keeps (builds l) (k (length l))) ->
  keeps grows (slide <- add_slide lay ;; k slide).
Proof.
  intros Hk w r w'. unfold bind at 1, add_slide. intros H.
  apply Hk in H as [Hv Hs]. simpl in *. split; [|exact Hv].
  destruct Hs as [s' Hs']; [eauto|]. eauto.
Qed.

Lemma keeps_create_title_slide (title subtitle : value) :
  keeps grows (create_title_slide title subtitle).
Proof.
  unfold create_title_slide. apply keeps_add_slide_then. intros l. keep_steps.
Qed.

Lemma keeps_create_content_slide (E : Env) (title content : value)
    (include_image : bool) :
  keeps grows (create_content_slide E title content include_image).
Proof.
  unfold create_content_slide. apply keeps_add_slide_then. intros l.
  keep_steps.
Qed.

Lemma keeps_create_image_slide (E : Env) (title content : value)
    (query : string) :
  keeps grows (create_image_slide E title content query).
Proof.
  unfold create_image_slide. apply keeps_add_slide_then. intros l. keep_steps.
Qed.

#[local] Hint Resolve keeps_create_title_slide keeps_create_content_slide
  keeps_create_image_slide : frame.

Lemma keeps_loop_body (E : Env) (outline : value) (i : Z) (slide_info : value) :
  keeps grows (loop_body E outline i slide_info).
Proof. unfold loop_body. keep_steps. Qed.

Lemma keeps_outline (E : Env) (topic : string) (num_slides : Z) :
  keeps same_deck (generate_content_outline E topic num_slides).
Proof.
  intros w r w' H.
  destruct (outline_keeps_deck E topic num_slides w r w' H) as (Hs & _ & Hv & _).
  now split.
Qed.

#[local] Hint Resolve keeps_loop_body keeps_outline : frame.

Lemma saves_at_end_bind {A} (output_file : string) (m : M A) (k : A -> M value) :
  keeps grows m -> (forall a, saves_at_end output_file (k a)) ->
  saves_at_end output_file (bind m k).
Proof.
  intros Hm Hk w r w'. unfold bind.
  destruct (m w) as [[e|a] w1] eqn:H1.
  - intros [= <- <-]. left. exists e. split; [reflexivity|]. eapply Hm, H1.
  - intros H2. apply Hm in H1 as [[n1 Hs1] Hv1].
    destruct (Hk a w1 r w' H2) as [(e & -> & [[n2 Hs2] Hv2]) | (-> & [n2 Hs2] & Hv2)].
    + left. exists e. split; [reflexivity|]. split; [|congruence].
      exists (n1 ++ n2). now rewrite Hs2, Hs1, app_assoc.
    + right. split; [reflexivity|]. split.
      * exists (n1 ++ n2). now rewrite Hs2, Hs1, app_assoc.
      * now rewrite Hv2, Hv1.
Qed.

Lemma saves_at_end_save (E : Env) (output_file : string) :
  saves_at_end output_file
    (save E output_file ;;; print (MsgSaved output_file) ;;;
     ret (VStr output_file)).
Proof.
  intros w r w'. unfold bind, save, print, log, ret.
  destruct (file_save E (trace w) output_file) as [e|[]]; intros [= <- <-].
  - left. exists e. split; [reflexivity|]. split; [|reflexivity].
    exists []. simpl. now rewrite app_nil_r.
  - right. simpl. split; [reflexivity|]. split.
    + exists []. now rewrite app_nil_r.
    + reflexivity.
Qed.

Lemma presentation_frame (E : Env) (topic : string)
    (num_slides : Z) (output_file : string) (w : world) :
  let (r, w') := generate_presentation E topic num_slides output_file w in
  (exists new, slides w' = slides w ++ new) /\
  match r with
  | Returned v =>
      (v = VNone /\ slides w' = slides w /\ saved w' = saved w) \/
      (v = VStr output_file /\
       saved w' = saved w ++ [(output_file, slides w')])
  | Raised _ => saved w' = saved w
  end.
Proof.
  destruct (generate_presentation E topic num_slides output_file w)
    as [r w'] eqn:H.
  unfold generate_presentation in H.
  unfold bind at 1, print at 1, log in H.
  unfold bind at 1 in H.
  destruct (generate_content_outline E topic num_slides
              (logged w [Printed MsgGeneratingOutline]))
    as [[e|outline] w1] eqn:Hout;
    apply keeps_outline in Hout as [Hs1 Hv1]; simpl in Hs1, Hv1.
  { injection H as <- <-. split; [|exact Hv1].
    exists []. now rewrite app_nil_r. }
  unfold bind at 1 in H.
  destruct ((if negb (truthy outline) then ret true
             else n <- lift (py_len outline);; ret (n <? 1)) w1)
    as [[e|rejected] w1'] eqn:Hrej.
  { injection H as <- <-.
    assert (Hk : same_deck w1 w1').
    { revert Hrej. apply (keeps_if same_deck); keep_steps. }
    destruct Hk as [Hs Hv]. split; [|congruence].
    exists []. rewrite app_nil_r. congruence. }
  assert (Hk : same_deck w1 w1').
  { revert Hrej. apply (keeps_if same_deck); keep_steps. }
  destruct Hk as [Hs Hv].
  destruct rejected.
  - injection H as <- <-. simpl. split.
    + exists []. rewrite app_nil_r. congruence.
    + left. repeat split; congruence.
  - assert (Hend : saves_at_end output_file
      (print MsgCreatingTitle;;;
       first <- lift (getitem0 outline);;
       title <- lift (getitem first "title");;
       first0 <- lift (getitem0 outline);;
       subtitle <- lift (dict_get first0 "content" (VStr EmptyString));;
       create_title_slide title subtitle;;;
       rest <- lift (slice_from1 outline);;
       items <- lift (py_iter rest);;
       for_each (enumerate 1 items)
         (fun '(i, slide_info) => loop_body E outline i slide_info);;;
       save E output_file;;; print (MsgSaved output_file);;;
       ret (VStr output_file))).
    { repeat first [ apply saves_at_end_save
                   | apply saves_at_end_bind; [keep_steps | intros ?] ].
      match goal with p : (Z * value)%type |- _ => destruct p end.
      keep_steps. }
    destruct (Hend w1' r w' H)
      as [(e & -> & [[new Hn] Hvn]) | (-> & [new Hn] & Hvn)].
    + split; [|congruence]. exists new. congruence.
    + split; [exists new; congruence|]. right. split; [reflexivity|]. congruence.
Qed.

(** X8. Whatever the outline and whatever the services do,
    [generate_presentation] only adds slides at the end of the deck, and
    it saves a presentation exactly when it returns the name of the
    file: then the file holds the whole deck. When it returns [None] the
    deck is as it was and nothing is saved; when it raises, nothing is
    saved. *)
Theorem presentation_saved_whole_or_not (E : Env) (topic : string)
    (num_slides : Z) (output_file : string) (w : world) :
  let (r, w') := generate_presentation E topic num_slides output_file w in
  (exists new, slides w' = slides w ++ new) /\
  match r with
  | Returned v =>
      (v = VNone /\ slides w' = slides w /\ saved w' = saved w) \/
      (v = VStr output_file /\
       saved w' = saved w ++ [(output_file, slides w')])
  | Raised _ => saved w' = saved w
  end.
Proof. apply presentation_frame. Qed.

(** ** The entry point *)

(** X9. The entry point lets no exception out. It prints the success
    line only when the presentation has been saved in this run, with the
    whole deck of the new generator; when the outline fails it prints
    nothing more and saves nothing; on any exception it prints the error
    and saves nothing. Without a [GOOGLE_API_KEY] the error is
    [ValueError] and nothing but the look-up of the key has happened. *)
Theorem main_reports (E : Env) (w : world) :
  let (r, w') := main E w in
  exists lines, r = Returned lines /\
    (lines = [LineInitiated; LineSuccess (VStr "AI_Presentation.pptx")] /\
     saved w' = saved w ++ [("AI_Presentation.pptx", slides w')]
     \/ lines = [LineInitiated] /\ saved w' = saved w /\ slides w' = []
     \/ exists e, lines = [LineInitiated; LineError e] /\ saved w' = saved w) /\
    ((getenv E (trace w) "GOOGLE_API_KEY" = None \/
      getenv E (trace w) "GOOGLE_API_KEY" = Some EmptyString) ->
     lines = [LineInitiated; LineError ValueError] /\
     w' = logged w [CallGetenv "GOOGLE_API_KEY"]).
Proof.
  unfold main, os_getenv. unfold bind at 1, call.
  set (key := match getenv E (trace w) "GOOGLE_API_KEY" with
              | Some s => VStr s
              | None => VNone
              end).
  set (w0 := logged w [CallGetenv "GOOGLE_API_KEY"]).
  unfold bind at 1, init_generator.
  destruct (truthy key) eqn:Hk; simpl negb; cbv iota.
  - pose proof (presentation_frame E "Animal Kingdom" 7 "AI_Presentation.pptx"
                  (World (trace w0) [] (files w0) (saved w0))) as Hf.
    destruct (generate_presentation E "Animal Kingdom" 7 "AI_Presentation.pptx"
                (World (trace w0) [] (files w0) (saved w0))) as [[e|v] w'].
    + eexists. split; [reflexivity|]. split.
      * right. right. exists e. split; [reflexivity|]. apply Hf.
      * intros [Hn | Hn]; subst key; rewrite Hn in Hk; discriminate.
    + destruct Hf as [_ [(-> & Hs & Hv) | (-> & Hv)]].
      * eexists. split; [reflexivity|]. split.
        -- right. left. simpl in *. repeat split; assumption.
        -- intros [Hn | Hn]; subst key; rewrite Hn in Hk; discriminate.
      * eexists. split; [reflexivity|]. split.
        -- left. split; [reflexivity | exact Hv].
        -- intros [Hn | Hn]; subst key; rewrite Hn in Hk; discriminate.
  - eexists. split; [reflexivity|]. split.
    + right. right. exists ValueError. now split.
    + intros _. now split.
Qed.

Lemma main_reports_witness :
  main object_env fresh =
  (Returned [LineInitiated; LineError ValueError],
   logged fresh [CallGetenv "GOOGLE_API_KEY"]).
Proof.
  pose proof (main_reports object_env fresh) as H.
  destruct (main object_env fresh) as [r w'].
  destruct H as (lines & -> & _ & Hkey).
  destruct (Hkey (or_introl eq_refl)) as [-> ->]. reflexivity.
Defined.

(** ** Counting the image requests *)



(** The animal kingdom on a machine where a photo is found and is a
    picture: the second slide has the picture and the narrow text box,
    the third has neither, and the temporary file is gone at the end. *)
Lemma animal_kingdom_with_photo :
  let w2 := snd (generate_presentation animal_pictured_env "Animal Kingdom" 3
                   "AI_Presentation.pptx" fresh) in
  layout <$> slides w2 = [0; 1; 1]%nat /\
  (fun s => pic_data <$> picture_of s) <$> slides w2
  = [None; Some small_gif; None] /\
  body_width <$> slides w2 = [None; Some (Inches 550); None] /\
  files w2 = ∅ /\
  saved w2 = [("AI_Presentation.pptx", slides w2)] /\
  trace w2 =
  [Printed MsgGeneratingOutline;
   CallModel (OutlinePrompt "Animal Kingdom" 3);
   CallJsonLoads animal_text;
   Printed MsgCreatingTitle;
   Printed (MsgCreatingSlide 2 3 (VStr "Mammals") "content");
   CallVision (ImageQueryPrompt (VStr mammals_content));
   CallGetenv "PEXELS_API_KEY";
   CallSearch pexels_url (VStr "secret") "a cat";
   CallFetch (VStr photo_url);
   CallOpen temp_img;
   CallRemove temp_img;
   Printed (MsgCreatingSlide 3 3 (VStr "Summary") "conclusion");
   CallSave "AI_Presentation.pptx";
   Printed (MsgSaved "AI_Presentation.pptx")].
Proof. repeat split; vm_compute; reflexivity. Qed.

(** The entry point on a machine with both keys, where the search
    request fails as it does on the text of [pexels_url]: the success
    line, and the presentation saved with its three slides, none with a
    picture. *)
Lemma main_animal_kingdom :
  fst (main animal_keyed_env fresh)
  = Returned [LineInitiated; LineSuccess (VStr "AI_Presentation.pptx")] /\
  (fun '(name, deck) => (name, length deck, picture_of <$> deck))
  <$> saved (snd (main animal_keyed_env fresh))
  = [("AI_Presentation.pptx", 3%nat, [None; None; None])].
Proof. split; vm_compute; reflexivity. Qed.

(** The entry point on a machine where a photo is found that is no
    picture: the error line, nothing saved, the temporary file left. *)
Lemma main_animal_refused :
  fst (main animal_env fresh)
  = Returned [LineInitiated; LineError not_a_picture] /\
  saved (snd (main animal_env fresh)) = [] /\
  files (snd (main animal_env fresh)) = {[ temp_img := "JFIF" ]}.
Proof. repeat split; vm_compute; reflexivity. Qed.
